(** * SyncPlatform: the synchronization supervisor of the explorer

    A shallow embedding of [app/platform/fabric/sync/SyncPlatform.js] and the
    properties its specification states about it.

    Layout:
    - [Js]: the fragment of JavaScript the class relies on (values as
      [JSON.parse] builds them, truthiness, [ToString], [parseInt], own
      property lookup, [Object.keys], the delay rule of [setTimeout]);
    - the object state of [SyncPlatform], the collaborators it calls
      ([FabricUtils], [SyncService], [FabricEvent]) and the log of those calls;
    - the methods [setBlocksSyncTime], [initialize], [destroy] and
      [isChannelEventHubConnected];
    - the event loop that runs the [sync] timer and the suspended loops;
    - the properties. *)

From Stdlib Require Import ZArith List String Ascii Bool Lia DecimalString DecimalPos.
Import ListNotations.
Open Scope string_scope.
Open Scope Z_scope.

(* ================================================================== *)
(** ** Errors and completions *)

(** What a [throw] carries.  [TypeError] is the built-in raised by a member
    access on [undefined]/[null] or by a failed conversion; [ExplorerError] is
    the project's own typed error, identified here by the name of its message
    constant in [ExplorerMessage]; [Raised] is whatever a collaborator throws. *)
Inductive error : Type :=
| TypeError
| ExplorerError (code : string)
| Raised (what : string).

(** Result of running a piece of code.  [Unsupported] marks a run that leaves
    the modelled fragment of the language (see [Js.get]); nothing is claimed
    about such runs. *)
Inductive completion (A : Type) : Type :=
| Normal (a : A)
| Throw (e : error)
| Unsupported.
Arguments Normal {A} a.
Arguments Throw {A} e.
Arguments Unsupported {A}.

Definition cbind {A B} (c : completion A) (k : A -> completion B) : completion B :=
  match c with
  | Normal a => k a
  | Throw e => Throw e
  | Unsupported => Unsupported
  end.

(* ================================================================== *)
(** ** The JavaScript fragment *)

Module Js.

(** Values as [JSON.parse] produces them, plus [undefined].
    - [Num n] is the number of integer value [n]; numbers are doubles in the
      source, exact for [|n| <= 2^53], which is the range meant here;
    - [Obj fields] lists the own properties of a plain object in the order
      [Object.keys] reports them, one entry per key;
    - strings are sequences of ASCII code units. *)
#[local] Set Warnings "-register-all".
Inductive value : Type :=
| Undefined
| Null
| Bool (b : bool)
| Num (n : Z)
| Str (s : string)
| Arr (items : list value)
| Obj (fields : list (string * value)).

(** [if (v)], [!v] *)
Definition truthy (v : value) : bool :=
  match v with
  | Undefined | Null => false
  | Bool b => b
  | Num n => negb (n =? 0)
  | Str s => negb (String.eqb s EmptyString)
  | Arr _ | Obj _ => true
  end.

(** Own property of a plain object. *)
Fixpoint own (fields : list (string * value)) (k : string) : option value :=
  match fields with
  | [] => None
  | (k', v) :: rest => if String.eqb k' k then Some v else own rest k
  end.

(** Names every plain object inherits from [Object.prototype]. *)
Definition Object_prototype : list string :=
  [ "constructor"; "__defineGetter__"; "__defineSetter__"; "hasOwnProperty";
    "__lookupGetter__"; "__lookupSetter__"; "isPrototypeOf";
    "propertyIsEnumerable"; "toString"; "valueOf"; "__proto__";
    "toLocaleString" ].

Definition inherited (k : string) : bool :=
  existsb (String.eqb k) Object_prototype.

(** [ToString(v)].  A plain object answers ["[object Object]"] through
    [Object.prototype.toString]; an own property named [toString] hides that
    method with a value that cannot be called, [valueOf] then gives back the
    object itself, and the conversion throws.  An array joins its items
    with commas, [null] and [undefined] items counting as empty. *)
Fixpoint ToString (v : value) : completion string :=
  match v with
  | Undefined => Normal "undefined"
  | Null => Normal "null"
  | Bool true => Normal "true"
  | Bool false => Normal "false"
  | Num n => Normal (NilZero.string_of_int (Z.to_int n))
  | Str s => Normal s
  | Arr items =>
      (fix join (l : list value) {struct l} : completion string :=
         let item (x : value) : completion string :=
           match x with
           | Undefined | Null => Normal EmptyString
           | _ => ToString x
           end in
         match l with
         | [] => Normal EmptyString
         | [x] => item x
         | x :: rest =>
             cbind (item x) (fun a =>
             cbind (join rest) (fun b => Normal (a ++ "," ++ b)))
         end) items
  | Obj fields =>
      match own fields "toString" with
      | Some _ => Throw TypeError
      | None => Normal "[object Object]"
      end
  end.

(** White space that [parseInt] skips in front of the number. *)
Definition is_space (c : ascii) : bool :=
  let n := nat_of_ascii c in
  ((9 <=? n) && (n <=? 13))%nat || (n =? 32)%nat.

Fixpoint trim_start (s : string) : string :=
  match s with
  | String c rest => if is_space c then trim_start rest else s
  | EmptyString => s
  end.

Definition digit (c : ascii) : option Z :=
  let n := nat_of_ascii c in
  if ((48 <=? n) && (n <=? 57))%nat then Some (Z.of_nat n - 48) else None.

(** Value of the longest prefix of decimal digits; [acc] is [None] until a
    digit has been read. *)
Fixpoint digits (acc : option Z) (s : string) : option Z :=
  match s with
  | EmptyString => acc
  | String c rest =>
      match digit c with
      | Some d =>
          digits (Some (10 * match acc with Some a => a | None => 0 end + d)) rest
      | None => acc
      end
  end.

(** [parseInt(s, 10)] on a string; [None] is [NaN].  With the radix given as
    10 no ["0x"] prefix is recognised. *)
Definition parseInt_string (s : string) : option Z :=
  match trim_start s with
  | String "-" rest => option_map Z.opp (digits None rest)
  | String "+" rest => digits None rest
  | t => digits None t
  end.

(** [parseInt(v, 10)]: the argument is converted with [ToString] first. *)
Definition parseInt (v : value) : completion (option Z) :=
  cbind (ToString v) (fun s => Normal (parseInt_string s)).

(** [recv[k]] for a string key.  Reading a member of [undefined] or [null]
    throws.  On a plain object an own property wins and a name that is
    neither own nor inherited reads as [undefined].  Members inherited from
    [Object.prototype] and members of primitives and arrays are built-ins
    outside the modelled fragment. *)
Definition get (recv : value) (k : string) : completion value :=
  match recv with
  | Undefined | Null => Throw TypeError
  | Obj fields =>
      match own fields k with
      | Some v => Normal v
      | None => if inherited k then Unsupported else Normal Undefined
      end
  | Bool _ | Num _ | Str _ | Arr _ => Unsupported
  end.

(** [recv[key]] where the key is itself a value: it is converted to a
    property name first. *)
Definition get_by (recv key : value) : completion value :=
  cbind (ToString key) (get recv).

(** [Object.keys(v)]. *)
Definition keys (v : value) : completion (list string) :=
  match v with
  | Undefined | Null => Throw TypeError
  | Obj fields => Normal (map fst fields)
  | Bool _ | Num _ | Str _ | Arr _ => Unsupported
  end.

(** [list[0]] on an array of strings built by [Object.keys]. *)
Definition first (l : list string) : value :=
  match l with
  | [] => Undefined
  | k :: _ => Str k
  end.

(** Delay of [setTimeout(f, d)]: the runtime replaces a delay below 1 or
    above 2^31 - 1 by 1 millisecond. *)
Definition timeout_delay (d : Z) : Z :=
  if (1 <=? d) && (d <=? 2147483647) then d else 1.

End Js.


(* ================================================================== *)
(** ** State of the object and of the process *)

Definition channel_name := string.

(** The client returned by [FabricUtils.createFabricClient].  The class only
    calls [getChannels()] on it, a [Map] from channel name to channel: its
    entries are listed here by key, in iteration order.  Channel membership
    does not change during a run. *)
Record Client : Type := { getChannels : list channel_name }.

(** Modelled from the spec: the class [FabricEvent] is absent.
    Following the contract of the event-stream registry, the object owns one
    event stream per channel and knows which of them hold an active
    subscription: [streams] lists the channels whose stream is connected. *)
Record FabricEvent : Type := { streams : list channel_name }.

(** The fields the constructor sets.  [sender], [persistence] and
    [syncService] are handles on collaborators and carry no state of the class
    itself. *)
Record SyncPlatform : Type := {
  network_name : Js.value;
  client_name : Js.value;
  client : option Client;
  eventHub : option FabricEvent;
  blocksSyncTime : Z;
  client_configs : Js.value
}.

(** [new SyncPlatform(persistence, sender)] *)
Definition constructor : SyncPlatform :=
  {| network_name := Js.Null;
     client_name := Js.Null;
     client := None;
     eventHub := None;
     blocksSyncTime := 60000;
     client_configs := Js.Null |}.

(** Calls that leave the class, in the order they are made. *)
Inductive call : Type :=
| HfcConfigSet (key : string) (v : Js.value)
| SetOrgEnrolmentPath (configs : Js.value)
| CreateFabricClient (configs name : Js.value)
| SynchNetworkConfigToDB
| NewFabricEvent
| EventHubInitialize
| IsChannelEventHubConnected (c : channel_name) (status : bool)
| SynchBlocks (c : channel_name)
| ConnectChannelEventHub (c : channel_name)
| DisconnectEventHubs.

(** A loop over the channels stopped at its [await]: the call of
    [synchBlocks] for [awaited] has been made and has not settled;
    [remaining] are the entries the iterator has yet to yield.  Two loops
    suspend this way and [ticked] tells them apart: the body of a tick, which
    the timer starts ([true], see [eventHub_synchBlocks]), and a call of
    [isChannelEventHubConnected] ([false]). *)
Record Task : Type := {
  awaited : channel_name;
  remaining : list channel_name;
  ticked : bool
}.

(** The process around the object: a clock in milliseconds, the pending
    [setTimeout(sync, ...)] timers (by due time), the suspended loops, the
    calls made so far, the errors with which calls of
    [isChannelEventHubConnected] have rejected, and the event hubs the object
    no longer holds.
    - A rejection in [rejected] is the outcome of the method's promise; it
      goes to whoever called the method.  The class itself never calls the
      method, so it drops no such promise; what a caller does with the
      rejection is outside the class.
    - [replaced]: line 114 overwrites [this.eventHub] without disconnecting
      the hub the field held.  That hub keeps the streams it has; nothing in
      the class refers to it again. *)
Record Process : Type := {
  this : SyncPlatform;
  clock : Z;
  timers : list Z;
  tasks : list Task;
  log : list call;
  rejected : list error;
  replaced : list FabricEvent
}.

Definition boot (now : Z) : Process :=
  {| this := constructor; clock := now; timers := []; tasks := [];
     log := []; rejected := []; replaced := [] |}.

Definition with_this (f : SyncPlatform -> SyncPlatform) (s : Process) : Process :=
  {| this := f (this s); clock := clock s; timers := timers s;
     tasks := tasks s; log := log s; rejected := rejected s;
     replaced := replaced s |}.

Definition set_network_name (v : Js.value) (p : SyncPlatform) : SyncPlatform :=
  {| network_name := v; client_name := client_name p; client := client p;
     eventHub := eventHub p; blocksSyncTime := blocksSyncTime p;
     client_configs := client_configs p |}.

Definition set_client_name (v : Js.value) (p : SyncPlatform) : SyncPlatform :=
  {| network_name := network_name p; client_name := v; client := client p;
     eventHub := eventHub p; blocksSyncTime := blocksSyncTime p;
     client_configs := client_configs p |}.

Definition set_client (c : option Client) (p : SyncPlatform) : SyncPlatform :=
  {| network_name := network_name p; client_name := client_name p; client := c;
     eventHub := eventHub p; blocksSyncTime := blocksSyncTime p;
     client_configs := client_configs p |}.

Definition set_eventHub (h : option FabricEvent) (p : SyncPlatform) : SyncPlatform :=
  {| network_name := network_name p; client_name := client_name p;
     client := client p; eventHub := h; blocksSyncTime := blocksSyncTime p;
     client_configs := client_configs p |}.

Definition set_blocksSyncTime (t : Z) (p : SyncPlatform) : SyncPlatform :=
  {| network_name := network_name p; client_name := client_name p;
     client := client p; eventHub := eventHub p; blocksSyncTime := t;
     client_configs := client_configs p |}.

Definition set_client_configs (v : Js.value) (p : SyncPlatform) : SyncPlatform :=
  {| network_name := network_name p; client_name := client_name p;
     client := client p; eventHub := eventHub p;
     blocksSyncTime := blocksSyncTime p; client_configs := v |}.

Definition set_timers (l : list Z) (s : Process) : Process :=
  {| this := this s; clock := clock s; timers := l; tasks := tasks s;
     log := log s; rejected := rejected s;
     replaced := replaced s |}.

Definition set_tasks (l : list Task) (s : Process) : Process :=
  {| this := this s; clock := clock s; timers := timers s; tasks := l;
     log := log s; rejected := rejected s;
     replaced := replaced s |}.

Definition set_clock (t : Z) (s : Process) : Process :=
  {| this := this s; clock := t; timers := timers s; tasks := tasks s;
     log := log s; rejected := rejected s;
     replaced := replaced s |}.

Definition logged (cs : list call) (s : Process) : Process :=
  {| this := this s; clock := clock s; timers := timers s; tasks := tasks s;
     log := log s ++ cs; rejected := rejected s;
     replaced := replaced s |}.

Definition reject (e : error) (s : Process) : Process :=
  {| this := this s; clock := clock s; timers := timers s; tasks := tasks s;
     log := log s; rejected := rejected s ++ [e];
     replaced := replaced s |}.

(* ================================================================== *)
(** ** Methods run in a state-and-exception monad

    A method transforms the process and completes normally or by a throw; what
    it wrote before throwing stays written. *)

Definition M (A : Type) : Type := Process -> completion A * Process.

Definition ret {A} (a : A) : M A := fun s => (Normal a, s).

Definition bind {A B} (m : M A) (k : A -> M B) : M B :=
  fun s =>
    match m s with
    | (Normal a, s') => k a s'
    | (Throw e, s') => (Throw e, s')
    | (Unsupported, s') => (Unsupported, s')
    end.

Notation "x <- m ;; k" := (bind m (fun x => k))
  (at level 61, m at next level, right associativity).
Notation "m ;; k" := (bind m (fun _ => k))
  (at level 61, right associativity).

Definition lift {A} (c : completion A) : M A := fun s => (c, s).
Definition throw {A} (e : error) : M A := lift (Throw e).
Definition update (f : SyncPlatform -> SyncPlatform) : M unit :=
  fun s => (Normal tt, with_this f s).
Definition read {A} (f : SyncPlatform -> A) : M A :=
  fun s => (Normal (f (this s)), s).
Definition emit (c : call) : M unit := fun s => (Normal tt, logged [c] s).

(** [setTimeout(sync, delay)] *)
Definition setTimeout_sync (delay : Z) : M unit :=
  fun s => (Normal tt, set_timers (timers s ++ [clock s + Js.timeout_delay delay]) s).

(* ================================================================== *)
(** ** Collaborators *)

(** What the code outside the class answers when called, and the one
    constant of [FabricConst] the class reads.
    - [setOrgEnrolmentPath] and [createFabricClient] are [FabricUtils]; the
      second answers a client or a falsy value ([None]);
    - [synchNetworkConfigToDB] is [SyncService]: the result of registration;
    - [eventHub_initialize] is [FabricEvent.initialize]: the streams it has
      opened by the time it settles, and how it settles. *)
Record World : Type := {
  NETWORK_CONFIGS : string;
  setOrgEnrolmentPath : Js.value -> completion Js.value;
  createFabricClient : Js.value -> Js.value -> completion (option Client);
  synchNetworkConfigToDB : Client -> completion Js.value;
  eventHub_initialize : Client -> list channel_name * completion unit
}.

(** Modelled from the spec: [FabricEvent.isChannelEventHubConnected] is
    absent; the registry answers true iff the channel's event stream reports
    an active subscription. *)
Definition hub_isChannelEventHubConnected (hub : FabricEvent) (c : channel_name) : bool :=
  existsb (String.eqb c) (streams hub).

(** Modelled from the spec: [FabricEvent.disconnectEventHubs] is absent; it
    disconnects every channel's stream, best effort, and does not raise on a
    stream that is already disconnected. *)
Definition hub_disconnectEventHubs (hub : FabricEvent) : FabricEvent :=
  {| streams := [] |}.

(* ================================================================== *)
(** ** The methods of the class *)

(** [setBlocksSyncTime(blocksSyncTime)], lines 152-159. *)
Definition setBlocksSyncTime (v : Js.value) : M unit :=
  if Js.truthy v then
    time <- lift (Js.parseInt v) ;;
    match time with
    | Some t => update (set_blocksSyncTime (t * 60 * 1000))
    | None => ret tt
    end
  else ret tt.

(** Lines 66-79 of [initialize]: the choice of network and client. *)
Definition select (network_configs : Js.value) (args : list string) : M unit :=
  match args with
  | [] =>
      ks <- lift (Js.keys network_configs) ;;
      update (set_network_name (Js.first ks)) ;;
      name <- read network_name ;;
      entry <- lift (Js.get_by network_configs name) ;;
      default <- lift (Js.get entry "name") ;;
      update (set_client_name default)
  | [a0] =>
      update (set_network_name (Js.Str a0)) ;;
      name <- read network_name ;;
      entry <- lift (Js.get_by network_configs name) ;;
      clients <- lift (Js.get entry "clients") ;;
      ks <- lift (Js.keys clients) ;;
      update (set_client_name (Js.first ks))
  | a0 :: a1 :: _ =>
      update (set_network_name (Js.Str a0)) ;;
      update (set_client_name (Js.Str a1))
  end.

(** [await this.eventHub.initialize()]: the hub ends up with the streams the
    collaborator has opened, whether the call fulfils or rejects. *)
Definition open_streams (w : World) (cl : Client) : M unit :=
  fun s =>
    (snd (eventHub_initialize w cl),
     with_this (set_eventHub (Some {| streams := fst (eventHub_initialize w cl) |})) s).

(** [this.eventHub = new FabricEvent(...)], line 114: the field takes a hub
    that has no stream yet; a hub the field held before is left as it is. *)
Definition assign_eventHub : M unit :=
  fun s =>
    (Normal tt,
     {| this := set_eventHub (Some {| streams := [] |}) (this s);
        clock := clock s; timers := timers s; tasks := tasks s;
        log := log s; rejected := rejected s;
        replaced := replaced s ++ match eventHub (this s) with
                                  | Some old => [old]
                                  | None => []
                                  end |}).

(** Lines 113-127 of [initialize]: the event hub and the first timer. *)
Definition start (w : World) (cl : Client) : M unit :=
  emit NewFabricEvent ;;
  assign_eventHub ;;
  emit EventHubInitialize ;;
  open_streams w cl ;;
  delay <- read blocksSyncTime ;;
  setTimeout_sync delay.

(** Lines 90-111 of [initialize], followed by [start]: the process-wide
    settings, the client, the registration. *)
Definition bring_up (w : World) (network_configs : Js.value) : M unit :=
  interval <- read blocksSyncTime ;;
  emit (HfcConfigSet "discovery-cache-life" (Js.Num interval)) ;;
  emit (HfcConfigSet "initialize-with-discovery" (Js.Bool true)) ;;
  name <- read network_name ;;
  configs <- lift (Js.get_by network_configs name) ;;
  emit (SetOrgEnrolmentPath configs) ;;
  configs' <- lift (setOrgEnrolmentPath w configs) ;;
  update (set_client_configs configs') ;;
  cname <- read client_name ;;
  emit (CreateFabricClient configs' cname) ;;
  made <- lift (createFabricClient w configs' cname) ;;
  update (set_client made) ;;
  match made with
  | None => throw (ExplorerError "ERROR_2011")
  | Some cl =>
      emit SynchNetworkConfigToDB ;;
      res <- lift (synchNetworkConfigToDB w cl) ;;
      if negb (Js.truthy res) then ret tt else start w cl
  end.

(** [initialize(args)], lines 56-132, on the configuration [all_config] that
    [JSON.parse] returned.  Logging is left out. *)
Definition initialize (w : World) (all_config : Js.value) (args : list string) : M unit :=
  network_configs <- lift (Js.get all_config (NETWORK_CONFIGS w)) ;;
  select network_configs args ;;
  setBlocksSyncTime all_config ;;
  bring_up w network_configs.

(** [destroy()], lines 193-197. *)
Definition destroy : M unit :=
  hub <- read eventHub ;;
  match hub with
  | Some h =>
      emit DisconnectEventHubs ;;
      update (set_eventHub (Some (hub_disconnectEventHubs h)))
  | None => ret tt
  end.

(* ================================================================== *)
(** ** The loop over the channels *)

(** One stretch of the [for] loop of [isChannelEventHubConnected], lines
    140-149, over the entries the iterator has yet to yield: it runs up to the
    next [await] or to the end.  [status] is what
    [this.eventHub.isChannelEventHubConnected] answers.  The result is the
    calls made and, when the loop stopped at an [await], the suspended loop.

    Modelled from the spec: [FabricEvent.connectChannelEventHub] is absent;
    it asks for the stream to be re-established, returns at once and
    guarantees no immediate connection, so the call is logged and the loop
    goes on; the connection, if it comes, comes later (see [Connected]
    below). *)
Fixpoint loop (status : channel_name -> bool) (entries : list channel_name)
  : list call * option Task :=
  match entries with
  | [] => ([], None)
  | c :: rest =>
      if status c then
        ([IsChannelEventHubConnected c true; SynchBlocks c],
         Some {| awaited := c; remaining := rest; ticked := false |})
      else
        let (calls, stop) := loop status rest in
        (IsChannelEventHubConnected c false :: ConnectChannelEventHub c :: calls, stop)
  end.

(** The same loop run to its end when nothing else runs in between:
    [settle c] tells how the promise of [synchBlocks] for [c] settles, [None]
    for fulfilled and [Some e] for rejected with [e].  An [await] on a
    rejected promise throws inside the loop, which nothing catches: the
    method's own promise rejects with [e].  The result is the calls made and
    how the method settles. *)
Fixpoint for_entries (status : channel_name -> bool)
  (settle : channel_name -> option error) (entries : list channel_name)
  : list call * option error :=
  match entries with
  | [] => ([], None)
  | c :: rest =>
      if status c then
        match settle c with
        | None =>
            let (calls, how) := for_entries status settle rest in
            (IsChannelEventHubConnected c true :: SynchBlocks c :: calls, how)
        | Some e => ([IsChannelEventHubConnected c true; SynchBlocks c], Some e)
        end
      else
        let (calls, how) := for_entries status settle rest in
        (IsChannelEventHubConnected c false :: ConnectChannelEventHub c :: calls, how)
  end.

(** [isChannelEventHubConnected()], lines 139-150, run to its end.  Reading
    [getChannels] of a null client, or a member of a null event hub once an
    entry is at hand, throws a [TypeError]. *)
Definition isChannelEventHubConnected (settle : channel_name -> option error)
  (p : SyncPlatform) : list call * option error :=
  match client p with
  | None => ([], Some TypeError)
  | Some cl =>
      match getChannels cl, eventHub p with
      | [], _ => ([], None)
      | _ :: _, None => ([], Some TypeError)
      | entries, Some hub =>
          for_entries (hub_isChannelEventHubConnected hub) settle entries
      end
  end.

(* ================================================================== *)
(** ** The event loop *)

Definition suspended (stop : option Task) : list Task :=
  match stop with
  | Some t => [t]
  | None => []
  end.

(** Run the loop from [entries] in process [s], up to its next [await]. *)
Definition resume (entries : list channel_name) (s : Process) : Process :=
  match entries, eventHub (this s) with
  | [], _ => s
  | _ :: _, None => reject TypeError s
  | _, Some hub =>
      let (calls, stop) := loop (hub_isChannelEventHubConnected hub) entries in
      set_tasks (tasks s ++ suspended stop) (logged calls s)
  end.

(** A call of [isChannelEventHubConnected()], lines 139-150, inside the
    process: the method runs up to its first [await] and hands back a
    promise. *)
Definition start_loop (s : Process) : Process :=
  match client (this s) with
  | None => reject TypeError s
  | Some cl => resume (getChannels cl) s
  end.

(** Modelled from the spec: the running mark of the tick body is absent with
    it.  A synchronization is marked running from its start to its
    completion, which is the time the tick body that started it is suspended
    on it: [busy l c] holds when one of the suspended tick bodies in [l]
    awaits the synchronization of [c]. *)
Definition busy (l : list Task) (c : channel_name) : bool :=
  existsb (fun t => ticked t && String.eqb (awaited t) c) l.

(** Modelled from the spec: [FabricEvent.synchBlocks], which the timer calls
    at line 121, is absent.  It is the tick body of the controller, and these
    definitions follow the pseudo-code of the specification: for each channel
    of the client, in order,
    - a channel whose synchronization, started by an earlier stretch of a
      tick, is still running is skipped;
    - a channel the registry reports connected gets its synchronization, which
      is marked running until it completes;
    - any other channel gets a request for reconnection and no
      synchronization in this tick.
    The channels are dealt with one after the other, so the body waits for
    the synchronization it has started.  [running] tells which channels carry
    the running mark when the stretch begins.  The result is the calls made
    and, when the body stopped to wait, the suspended body. *)
Fixpoint tick_loop (running status : channel_name -> bool) (entries : list channel_name)
  : list call * option Task :=
  match entries with
  | [] => ([], None)
  | c :: rest =>
      if running c then tick_loop running status rest
      else if status c then
        ([IsChannelEventHubConnected c true; SynchBlocks c],
         Some {| awaited := c; remaining := rest; ticked := true |})
      else
        let (calls, stop) := tick_loop running status rest in
        (IsChannelEventHubConnected c false :: ConnectChannelEventHub c :: calls, stop)
  end.

(** Modelled from the spec: the tick body from [entries] on, in the
    process, up to the next synchronization it waits for.  The registry is
    the event hub; a tick body runs only where there is one. *)
Definition continue_tick (entries : list channel_name) (s : Process) : Process :=
  match eventHub (this s) with
  | None => s
  | Some hub =>
      let (calls, stop) :=
        tick_loop (busy (tasks s)) (hub_isChannelEventHubConnected hub) entries in
      set_tasks (tasks s ++ suspended stop) (logged calls s)
  end.

(** Modelled from the spec: a call of [FabricEvent.synchBlocks()]: the tick
    body over the channels known to the client the hub was built with (line
    114 hands it [this.client]), up to the first synchronization it waits
    for.  The call hands back a promise, which [sync]
    drops.  Following the failure policy of the specification the body
    contains the error of a synchronization (see [step]), so that promise
    does not reject. *)
Definition eventHub_synchBlocks (s : Process) : Process :=
  match client (this s) with
  | None => s
  | Some cl => continue_tick (getChannels cl) s
  end.

(** The arrow function [sync], lines 117-125: start the body, then ask for
    the next call of [sync] after [this.blocksSyncTime], in the same turn.
    With no event hub the member access of line 121 throws a [TypeError]
    inside the timer callback, where nothing catches it: the process ends
    there and the model follows it no further ([None]). *)
Definition sync (s : Process) : option Process :=
  match eventHub (this s) with
  | None => None
  | Some _ =>
      let s' := eventHub_synchBlocks s in
      Some (set_timers
              (timers s' ++ [clock s' + Js.timeout_delay (blocksSyncTime (this s'))]) s')
  end.

(** Timers run in the order of their due times, the older first among
    equals. *)
Fixpoint earliest (l : list Z) : option Z :=
  match l with
  | [] => None
  | d :: rest =>
      match earliest rest with
      | None => Some d
      | Some m => Some (if d <=? m then d else m)
      end
  end.

Fixpoint remove_first (d : Z) (l : list Z) : list Z :=
  match l with
  | [] => []
  | x :: rest => if x =? d then rest else x :: remove_first d rest
  end.

Fixpoint remove_nth {A} (i : nat) (l : list A) : list A :=
  match i, l with
  | _, [] => []
  | O, _ :: rest => rest
  | S j, x :: rest => x :: remove_nth j rest
  end.

(** What can happen to the process once [initialize] has returned. *)
Inductive event : Type :=
| Elapse (ms : Z)
| Fire
| Settle (i : nat) (how : option error)
| Connected (c : channel_name)
| Dropped (c : channel_name)
| Destroy.

(** One step; [None] when the event cannot happen in [s] or ends the
    process.
    - [Elapse ms]: [ms] milliseconds pass;
    - [Fire]: the earliest timer has come due and [sync] runs;
    - [Settle i how]: the [synchBlocks] promise that the [i]-th suspended loop
      awaits settles, fulfilled ([None]) or rejected.  A call of
      [isChannelEventHubConnected] goes on with its loop when the promise is
      fulfilled; when it is rejected the [await] throws, nothing in the
      method catches it, and the method's promise rejects: the loop is over.
      A tick body (modelled from the spec) clears the running mark either
      way, keeps the error of a failed synchronization to itself, and goes
      on with the next channel;
    - [Connected c], [Dropped c]: the event stream of [c] gains or loses its
      subscription;
    - [Destroy]: [destroy()] is called from outside. *)
Definition step (s : Process) (e : event) : option Process :=
  match e with
  | Elapse ms => if 0 <=? ms then Some (set_clock (clock s + ms) s) else None
  | Fire =>
      match earliest (timers s) with
      | Some due =>
          if due <=? clock s
          then sync (set_timers (remove_first due (timers s)) s)
          else None
      | None => None
      end
  | Settle i how =>
      match nth_error (tasks s) i with
      | Some t =>
          let s' := set_tasks (remove_nth i (tasks s)) s in
          Some (if ticked t then continue_tick (remaining t) s'
                else match how with
                     | None => resume (remaining t) s'
                     | Some e => reject e s'
                     end)
      | None => None
      end
  | Connected c =>
      match eventHub (this s) with
      | Some hub =>
          if hub_isChannelEventHubConnected hub c then Some s
          else Some (with_this (set_eventHub (Some {| streams := c :: streams hub |})) s)
      | None => None
      end
  | Dropped c =>
      match eventHub (this s) with
      | Some hub =>
          Some (with_this (set_eventHub
                  (Some {| streams := filter (fun x => negb (String.eqb x c)) (streams hub) |})) s)
      | None => None
      end
  | Destroy => Some (snd (destroy s))
  end.

Fixpoint run (s : Process) (events : list event) : option Process :=
  match events with
  | [] => Some s
  | e :: rest =>
      match step s e with
      | Some s' => run s' rest
      | None => None
      end
  end.




(* ------------------------------------------------------------------ *)
(** *** A running example: the configuration of the specification *)

Definition config_net1 : Js.value :=
  Js.Obj [("network-configs",
           Js.Obj [("net1",
                    Js.Obj [("name", Js.Str "clientA");
                            ("clients", Js.Obj [("clientA", Js.Obj [])])])])].

(** A world where every collaborator succeeds: the client knows the channels
    [chans] and [FabricEvent.initialize] connects the streams [opened]. *)
Definition friendly (chans opened : list channel_name) : World :=
  {| NETWORK_CONFIGS := "network-configs";
     setOrgEnrolmentPath := fun configs => Normal configs;
     createFabricClient := fun _ _ => Normal (Some {| getChannels := chans |});
     synchNetworkConfigToDB := fun _ => Normal (Js.Bool true);
     eventHub_initialize := fun _ => (opened, Normal tt) |}.

(** The process once [initialize] has returned in that world, at time 0. *)
Definition running (chans opened : list channel_name) : Process :=
  snd (initialize (friendly chans opened) config_net1 [] (boot 0)).

(** The same world, except that registration reports failure. *)
Definition unregistered (chans : list channel_name) : World :=
  {| NETWORK_CONFIGS := "network-configs";
     setOrgEnrolmentPath := fun configs => Normal configs;
     createFabricClient := fun _ _ => Normal (Some {| getChannels := chans |});
     synchNetworkConfigToDB := fun _ => Normal (Js.Bool false);
     eventHub_initialize := fun _ => (chans, Normal tt) |}.

(* ================================================================== *)
(** ** Vocabulary of the properties *)

(** [keeps f m]: running [m] does not change the observation [f], however
    [m] completes. *)
Definition keeps {A X} (f : Process -> X) (m : M A) : Prop :=
  forall s, f (snd (m s)) = f s.

(** The interval once [setBlocksSyncTime v] has run in [s]. *)
Definition interval_after (v : Js.value) (s : Process) : Z :=
  blocksSyncTime (this (snd (setBlocksSyncTime v s))).

(** The pair of names [initialize] settles on. *)
Definition names (s : Process) : Js.value * Js.value :=
  (network_name (this s), client_name (this s)).

(** The calls the loop over the channels makes. *)
Definition of_loop (c : call) : bool :=
  match c with
  | IsChannelEventHubConnected _ _ | SynchBlocks _ | ConnectChannelEventHub _ => true
  | _ => false
  end.

Definition loop_calls (s : Process) : list call := filter of_loop (log s).

(** Nothing of the controller has run: no loop is suspended and the log
    holds no call of the loop. *)
Definition idle (s : Process) : Prop := tasks s = [] /\ loop_calls s = [].

(** How often the calls [calls] hold [synchBlocks] for the channel [c], and
    how often [connectChannelEventHub] for it. *)
Definition synchs (c : channel_name) (calls : list call) : nat :=
  List.length (filter (fun x => match x with
                                | SynchBlocks c' => String.eqb c' c
                                | _ => false
                                end) calls).

Definition reconnects (c : channel_name) (calls : list call) : nat :=
  List.length (filter (fun x => match x with
                                | ConnectChannelEventHub c' => String.eqb c' c
                                | _ => false
                                end) calls).

(** The event hub was asked about [c] and answered [status]. *)
Definition reported (c : channel_name) (status : bool) (calls : list call) : Prop :=
  In (IsChannelEventHubConnected c status) calls.

(** Number of timer firings among [events]. *)
Fixpoint fires (events : list event) : nat :=
  match events with
  | [] => O
  | Fire :: rest => S (fires rest)
  | _ :: rest => fires rest
  end.

(** The settlements that take one run of the loop to its end when nothing
    else is suspended: one per entry reported connected, as [settle] has it,
    up to the first rejection. *)
Fixpoint settlements (status : channel_name -> bool)
  (settle : channel_name -> option error) (entries : list channel_name) : list event :=
  match entries with
  | [] => []
  | c :: rest =>
      if status c then
        Settle 0 (settle c)
        :: match settle c with
           | None => settlements status settle rest
           | Some _ => []
           end
      else settlements status settle rest
  end.

(* ================================================================== *)
(** ** Vocabulary of the further properties *)

(** The calls [initialize] makes when nothing stops it, lines 92-115, in the
    order of the source. *)
Definition initialize_calls (interval : Z) (configs configs' name : Js.value)
  : list call :=
  [ HfcConfigSet "discovery-cache-life" (Js.Num interval);
    HfcConfigSet "initialize-with-discovery" (Js.Bool true);
    SetOrgEnrolmentPath configs;
    CreateFabricClient configs' name;
    SynchNetworkConfigToDB;
    NewFabricEvent;
    EventHubInitialize ].

(** The calls of one pass of the loop over an entry, by what the event hub
    answers about it. *)
Definition calls_about (status : channel_name -> bool) (c : channel_name) : list call :=
  if status c
  then [IsChannelEventHubConnected c true; SynchBlocks c]
  else [IsChannelEventHubConnected c false; ConnectChannelEventHub c].


(** A string of decimal digits. *)
Fixpoint all_digits (s : string) : bool :=
  match s with
  | EmptyString => true
  | String c rest =>
      match Js.digit c with
      | Some _ => all_digits rest
      | None => false
      end
  end.

(** Worlds for the examples: one where [setOrgEnrolmentPath] throws, one
    where [createFabricClient] answers no client, one where
    [FabricEvent.initialize] rejects after opening the streams [opened]. *)
Definition failing_enrolment : World :=
  {| NETWORK_CONFIGS := "network-configs";
     setOrgEnrolmentPath := fun _ => Throw (Raised "enrolment");
     createFabricClient := fun _ _ => Normal None;
     synchNetworkConfigToDB := fun _ => Normal (Js.Bool true);
     eventHub_initialize := fun _ => ([], Normal tt) |}.

Definition no_client : World :=
  {| NETWORK_CONFIGS := "network-configs";
     setOrgEnrolmentPath := fun configs => Normal configs;
     createFabricClient := fun _ _ => Normal None;
     synchNetworkConfigToDB := fun _ => Normal (Js.Bool true);
     eventHub_initialize := fun _ => ([], Normal tt) |}.

Definition failing_hub (chans opened : list channel_name) : World :=
  {| NETWORK_CONFIGS := "network-configs";
     setOrgEnrolmentPath := fun configs => Normal configs;
     createFabricClient := fun _ _ => Normal (Some {| getChannels := chans |});
     synchNetworkConfigToDB := fun _ => Normal (Js.Bool true);
     eventHub_initialize := fun _ => (opened, Throw (Raised "event hub")) |}.

(** The controller is running with interval [interval]: an event hub is in
    place and exactly one [sync] timer is pending, due at [due]. *)
Definition ticking (interval due : Z) (s : Process) : Prop :=
  eventHub (this s) <> None
  /\ blocksSyncTime (this s) = interval
  /\ timers s = [due].

(** No awaited synchronization fails among [events]. *)
Definition no_failure (events : list event) : bool :=
  forallb (fun e => match e with
                    | Settle _ (Some _) => false
                    | _ => true
                    end) events.


(** Value of a decimal numeral read from the left on top of [acc], the way
    [Js.digits] reads its characters. *)
Fixpoint uint_value (u : Decimal.uint) (acc : Z) : Z :=
  match u with
  | Decimal.Nil => acc
  | Decimal.D0 u => uint_value u (10 * acc + 0)
  | Decimal.D1 u => uint_value u (10 * acc + 1)
  | Decimal.D2 u => uint_value u (10 * acc + 2)
  | Decimal.D3 u => uint_value u (10 * acc + 3)
  | Decimal.D4 u => uint_value u (10 * acc + 4)
  | Decimal.D5 u => uint_value u (10 * acc + 5)
  | Decimal.D6 u => uint_value u (10 * acc + 6)
  | Decimal.D7 u => uint_value u (10 * acc + 7)
  | Decimal.D8 u => uint_value u (10 * acc + 8)
  | Decimal.D9 u => uint_value u (10 * acc + 9)
  end.

(* ================================================================== *)
(** ** The definitions at work *)

Example parseInt_5 : Js.parseInt (Js.Str "5") = Normal (Some 5).
Proof. reflexivity. Qed.

Example parseInt_abc : Js.parseInt (Js.Str "abc") = Normal None.
Proof. reflexivity. Qed.

Example parseInt_prefix : Js.parseInt (Js.Str "  -12px") = Normal (Some (-12)).
Proof. reflexivity. Qed.

Example parseInt_object : Js.parseInt (Js.Obj [("syncTime", Js.Num 5)]) = Normal None.
Proof. reflexivity. Qed.

Example parseInt_array : Js.parseInt (Js.Arr [Js.Num 5; Js.Null; Js.Str "x"]) = Normal (Some 5).
Proof. reflexivity. Qed.

Example initialize_net1 :
  initialize (friendly ["mychannel"] ["mychannel"]) config_net1 [] (boot 0)
  = (Normal tt,
     {| this := {| network_name := Js.Str "net1";
                   client_name := Js.Str "clientA";
                   client := Some {| getChannels := ["mychannel"] |};
                   eventHub := Some {| streams := ["mychannel"] |};
                   blocksSyncTime := 60000;
                   client_configs :=
                     Js.Obj [("name", Js.Str "clientA");
                             ("clients", Js.Obj [("clientA", Js.Obj [])])] |};
        clock := 0;
        timers := [60000];
        tasks := [];
        log := [HfcConfigSet "discovery-cache-life" (Js.Num 60000);
                HfcConfigSet "initialize-with-discovery" (Js.Bool true);
                SetOrgEnrolmentPath
                  (Js.Obj [("name", Js.Str "clientA");
                           ("clients", Js.Obj [("clientA", Js.Obj [])])]);
                CreateFabricClient
                  (Js.Obj [("name", Js.Str "clientA");
                           ("clients", Js.Obj [("clientA", Js.Obj [])])])
                  (Js.Str "clientA");
                SynchNetworkConfigToDB; NewFabricEvent; EventHubInitialize];
        rejected := [];
        replaced := [] |}).
Proof. reflexivity. Qed.

(** A delay [setTimeout] does not take as it is: 40000 minutes are more than
    2^31 - 1 milliseconds. *)
Example timeout_delay_overflow : Js.timeout_delay (40000 * 60 * 1000) = 1.
Proof. reflexivity. Qed.

Example timeout_delay_zero : Js.timeout_delay 0 = 1.
Proof. reflexivity. Qed.

Example ToString_numbers :
  Js.ToString (Js.Num 0) = Normal "0" /\ Js.ToString (Js.Num (-12)) = Normal "-12".
Proof. split; reflexivity. Qed.

Example ToString_array :
  Js.ToString (Js.Arr [Js.Num 1; Js.Null; Js.Arr [Js.Str "a"; Js.Bool true]])
  = Normal "1,,a,true".
Proof. reflexivity. Qed.

Example ToString_shadowed :
  Js.ToString (Js.Obj [("toString", Js.Str "x")]) = Throw TypeError.
Proof. reflexivity. Qed.

(** One call of the method on two channels, the first disconnected. *)
Example loop_on_two_channels :
  isChannelEventHubConnected (fun _ => None) (this (running ["a"; "b"] ["b"]))
  = ([IsChannelEventHubConnected "a" false; ConnectChannelEventHub "a";
      IsChannelEventHubConnected "b" true; SynchBlocks "b"], None).
Proof. vm_compute. reflexivity. Qed.

(** The first tick in the process, and the end of its synchronization. *)
Example first_tick :
  option_map (fun s => (timers s, tasks s, loop_calls s))
    (run (running ["a"; "b"] ["b"]) [Elapse 60000; Fire; Settle 0 None])
  = Some ([120000], [],
          [IsChannelEventHubConnected "a" false; ConnectChannelEventHub "a";
           IsChannelEventHubConnected "b" true; SynchBlocks "b"]).
Proof. vm_compute. reflexivity. Qed.

(** The tick body skips a channel whose synchronization is still running: a
    second tick, one interval after the first, makes no call. *)
Example second_tick_skips :
  option_map (fun s => (timers s, List.length (tasks s), loop_calls s))
    (run (running ["a"] ["a"]) [Elapse 60000; Fire; Elapse 60000; Fire])
  = Some ([180000], 1%nat, [IsChannelEventHubConnected "a" true; SynchBlocks "a"]).
Proof. vm_compute. reflexivity. Qed.

(** The tick body contains a failed synchronization and goes on; the same
    failure ends a call of [isChannelEventHubConnected]. *)
Example tick_goes_on_after_a_failure :
  option_map (fun s => (loop_calls s, rejected s))
    (run (running ["a"; "b"] ["a"; "b"])
         [Elapse 60000; Fire; Settle 0 (Some (Raised "synchBlocks"))])
  = Some ([IsChannelEventHubConnected "a" true; SynchBlocks "a";
           IsChannelEventHubConnected "b" true; SynchBlocks "b"], []).
Proof. vm_compute. reflexivity. Qed.

Example call_ends_at_a_failure :
  option_map (fun s => (loop_calls s, rejected s))
    (run (start_loop (running ["a"; "b"] ["a"; "b"]))
         [Settle 0 (Some (Raised "synchBlocks"))])
  = Some ([IsChannelEventHubConnected "a" true; SynchBlocks "a"],
          [Raised "synchBlocks"]).
Proof. vm_compute. reflexivity. Qed.

(** A second [initialize] on the same object leaves the first event hub
    behind, with its streams. *)
Example second_initialize_replaces_the_hub :
  let w := friendly ["a"] ["a"] in
  let s := snd (initialize w config_net1 [] (snd (initialize w config_net1 [] (boot 0)))) in
  (eventHub (this s), replaced s, timers s)
  = (Some {| streams := ["a"] |}, [{| streams := ["a"] |}], [60000; 60000]).
Proof. vm_compute. reflexivity. Qed.

(* ================================================================== *)
(** ** Frame lemmas: what a method leaves alone *)


Lemma keeps_ret {A X} (f : Process -> X) (a : A) : keeps f (ret a).
Proof. intro s. reflexivity. Qed.

Lemma keeps_lift {A X} (f : Process -> X) (c : completion A) : keeps f (lift c).
Proof. intro s. reflexivity. Qed.

Lemma keeps_throw {A X} (f : Process -> X) (e : error) : keeps f (@throw A e).
Proof. intro s. reflexivity. Qed.

Lemma keeps_read {A X} (f : Process -> X) (g : SyncPlatform -> A) : keeps f (read g).
Proof. intro s. reflexivity. Qed.

Lemma keeps_bind {A B X} (f : Process -> X) (m : M A) (k : A -> M B) :
  keeps f m -> (forall a, keeps f (k a)) -> keeps f (bind m k).
Proof.
  intros Hm Hk s. unfold bind. specialize (Hm s).
  destruct (m s) as [[a | e |] s']; simpl in *; try assumption.
  now rewrite Hk.
Qed.

Lemma keeps_update {X} (f : Process -> X) (g : SyncPlatform -> SyncPlatform) :
  (forall s, f (with_this g s) = f s) -> keeps f (update g).
Proof. intros H s. apply H. Qed.

Lemma keeps_emit {X} (f : Process -> X) (c : call) :
  (forall s, f (logged [c] s) = f s) -> keeps f (emit c).
Proof. intros H s. apply H. Qed.

Lemma keeps_setTimeout {X} (f : Process -> X) (d : Z) :
  (forall l s, f (set_timers l s) = f s) -> keeps f (setTimeout_sync d).
Proof. intros H s. apply H. Qed.

Lemma keeps_open_streams {X} (f : Process -> X) w cl :
  (forall h s, f (with_this (set_eventHub h) s) = f s) -> keeps f (open_streams w cl).
Proof. intros H s. apply H. Qed.

Lemma keeps_assign_eventHub {X} (f : Process -> X) :
  (forall s, f (snd (assign_eventHub s)) = f s) -> keeps f assign_eventHub.
Proof. intros H s. apply H. Qed.

(** Peels a method apart along its binds and closes the leaves that do not
    write to the observed field. *)
Ltac frame :=
  repeat first
    [ apply keeps_ret | apply keeps_lift | apply keeps_throw | apply keeps_read
    | apply keeps_update; reflexivity
    | apply keeps_emit; reflexivity
    | apply keeps_setTimeout; reflexivity
    | apply keeps_open_streams; reflexivity
    | apply keeps_assign_eventHub; reflexivity
    | apply keeps_bind; [ | intro ]
    | match goal with
      | |- keeps _ (match ?x with _ => _ end) => destruct x
      | |- keeps _ (if ?x then _ else _) => destruct x
      end ].

Lemma select_keeps_interval nc args :
  keeps (fun s => blocksSyncTime (this s)) (select nc args).
Proof. unfold select. frame. Qed.

Lemma select_keeps_log nc args : keeps log (select nc args).
Proof. unfold select. frame. Qed.

Lemma select_keeps_timers nc args : keeps timers (select nc args).
Proof. unfold select. frame. Qed.

Lemma select_keeps_eventHub nc args :
  keeps (fun s => eventHub (this s)) (select nc args).
Proof. unfold select. frame. Qed.

Lemma setBlocksSyncTime_keeps_log v : keeps log (setBlocksSyncTime v).
Proof. unfold setBlocksSyncTime. frame. Qed.

Lemma setBlocksSyncTime_keeps_timers v : keeps timers (setBlocksSyncTime v).
Proof. unfold setBlocksSyncTime. frame. Qed.

Lemma setBlocksSyncTime_keeps_eventHub v :
  keeps (fun s => eventHub (this s)) (setBlocksSyncTime v).
Proof. unfold setBlocksSyncTime. frame. Qed.

Lemma setBlocksSyncTime_keeps_names v :
  keeps names (setBlocksSyncTime v).
Proof. unfold setBlocksSyncTime. frame. Qed.


Lemma interval_after_cases v s :
  interval_after v s = blocksSyncTime (this s) \/
  exists t, Js.truthy v = true /\ Js.parseInt v = Normal (Some t) /\
            interval_after v s = t * 60 * 1000.
Proof.
  unfold interval_after, setBlocksSyncTime, bind, lift.
  destruct (Js.truthy v); [ | now left ].
  destruct (Js.parseInt v) as [[t | ] | e | ]; simpl; try now left.
  right. exists t. auto.
Qed.

Lemma interval_after_depends v s s' :
  blocksSyncTime (this s) = blocksSyncTime (this s') ->
  interval_after v s = interval_after v s'.
Proof.
  intro H. unfold interval_after, setBlocksSyncTime, bind, lift.
  destruct (Js.truthy v); [ | exact H ].
  destruct (Js.parseInt v) as [[t | ] | e | ]; simpl; auto.
Qed.

(** [parseInt] of a plain object is [NaN] when it does not throw. *)
Lemma parseInt_Obj fields :
  Js.parseInt (Js.Obj fields) = Normal None \/
  Js.parseInt (Js.Obj fields) = Throw TypeError.
Proof.
  unfold Js.parseInt. simpl.
  destruct (Js.own fields "toString"); simpl; auto.
Qed.

Lemma interval_after_Obj fields s :
  interval_after (Js.Obj fields) s = blocksSyncTime (this s).
Proof.
  destruct (interval_after_cases (Js.Obj fields) s) as [H | (t & _ & H & _)]; auto.
  destruct (parseInt_Obj fields) as [E | E]; rewrite E in H; discriminate.
Qed.

Lemma bring_up_keeps_interval w nc :
  keeps (fun s => blocksSyncTime (this s)) (bring_up w nc).
Proof. unfold bring_up, start. frame. Qed.

Lemma bring_up_keeps_names w nc :
  keeps names (bring_up w nc).
Proof. unfold bring_up, start. frame. Qed.

(** Unfolds the monad so that a run shows as nested case analyses on what
    the collaborators and the conversions answer. *)
Ltac run_monad :=
  cbv beta iota delta [bind lift emit update read ret throw].

Lemma initialize_interval w cfg args s :
  blocksSyncTime (this (snd (initialize w cfg args s))) = blocksSyncTime (this s) \/
  blocksSyncTime (this (snd (initialize w cfg args s))) = interval_after cfg s.
Proof.
  unfold initialize. run_monad.
  destruct (Js.get cfg (NETWORK_CONFIGS w)) as [nc | e | ]; try now left.
  pose proof (select_keeps_interval nc args s) as Hsel. cbv beta in Hsel.
  destruct (select nc args s) as [[[] | e | ] s1]; simpl in Hsel; try now left.
  assert (Hset : blocksSyncTime (this (snd (setBlocksSyncTime cfg s1))) = interval_after cfg s).
  { fold (interval_after cfg s1). apply interval_after_depends. exact Hsel. }
  destruct (setBlocksSyncTime cfg s1) as [[[] | e | ] s2]; simpl in Hset; try now right.
  right. rewrite <- Hset. apply (bring_up_keeps_interval w nc s2).
Qed.

(* ================================================================== *)
(** ** The synchronization interval *)

Lemma setBlocksSyncTime_falsy v s :
  Js.truthy v = false -> setBlocksSyncTime v s = (Normal tt, s).
Proof. intro H. unfold setBlocksSyncTime. now rewrite H. Qed.

Lemma setBlocksSyncTime_NaN v s :
  Js.truthy v = true -> Js.parseInt v = Normal None ->
  setBlocksSyncTime v s = (Normal tt, s).
Proof.
  intros H P. unfold setBlocksSyncTime. rewrite H. run_monad. now rewrite P.
Qed.

Lemma setBlocksSyncTime_integer v t s :
  Js.truthy v = true -> Js.parseInt v = Normal (Some t) ->
  setBlocksSyncTime v s = (Normal tt, with_this (set_blocksSyncTime (t * 60 * 1000)) s).
Proof.
  intros H P. unfold setBlocksSyncTime. rewrite H. run_monad. now rewrite P.
Qed.

(** C4, as the code has it: [setBlocksSyncTime] reads its argument as a whole
    number of minutes and stores it in milliseconds, and it does not check
    the sign of what it read.  ["5"] gives 300000; ["abc"] and an absent
    argument leave the interval as it is; ["0"] is taken and gives 0, ["-1"]
    gives -60000; the number 0, being falsy, changes nothing.  In general a
    falsy argument, or one [parseInt] reads as [NaN], changes nothing, and an
    argument read as the integer [t] sets [t * 60000] (stated where the
    doubles of the source are exact). *)
Theorem C4_setBlocksSyncTime_reads_minutes :
  forall s : Process,
    interval_after (Js.Str "5") s = 300000
    /\ setBlocksSyncTime (Js.Str "abc") s = (Normal tt, s)
    /\ setBlocksSyncTime Js.Undefined s = (Normal tt, s)
    /\ interval_after (Js.Str "0") s = 0
    /\ interval_after (Js.Str "-1") s = -60000
    /\ setBlocksSyncTime (Js.Num 0) s = (Normal tt, s)
    /\ (forall v, Js.truthy v = false -> setBlocksSyncTime v s = (Normal tt, s))
    /\ (forall v, Js.truthy v = true -> Js.parseInt v = Normal None ->
          setBlocksSyncTime v s = (Normal tt, s))
    /\ (forall v t, Js.truthy v = true -> Js.parseInt v = Normal (Some t) ->
          Z.abs (t * 60000) <= 2 ^ 53 ->
          fst (setBlocksSyncTime v s) = Normal tt /\ interval_after v s = t * 60000).
Proof.
  intro s. repeat split; try reflexivity.
  - intros v H. now apply setBlocksSyncTime_falsy.
  - intros v H P. now apply setBlocksSyncTime_NaN.
  - now rewrite (setBlocksSyncTime_integer v t s).
  - unfold interval_after. rewrite (setBlocksSyncTime_integer v t s) by assumption.
    simpl. lia.
Qed.

Lemma C4_setBlocksSyncTime_reads_minutes_witness :
  fst (setBlocksSyncTime (Js.Str "7") (boot 0)) = Normal tt
  /\ interval_after (Js.Str "7") (boot 0) = 7 * 60000.
Proof.
  destruct (C4_setBlocksSyncTime_reads_minutes (boot 0))
    as (_ & _ & _ & _ & _ & _ & _ & _ & H).
  apply (H (Js.Str "7") 7); [ reflexivity | reflexivity | vm_compute; discriminate ].
Defined.

(** C4, as stated, fails at ["0"]: starting from the constructor's 60000 the
    call completes normally and leaves an interval of 0, neither the default
    nor a positive number. *)
Lemma C4_zero_is_accepted :
  fst (setBlocksSyncTime (Js.Str "0") (boot 0)) = Normal tt
  /\ blocksSyncTime (this (boot 0)) = 60000
  /\ interval_after (Js.Str "0") (boot 0) <> 60000
  /\ ~ 0 < interval_after (Js.Str "0") (boot 0).
Proof.
  repeat split; try reflexivity; vm_compute; discriminate.
Qed.

(** C10: [initialize] hands [setBlocksSyncTime] the whole configuration, so
    the interval after [initialize] is the one before or the one
    [setBlocksSyncTime all_config] computes; for a configuration object that
    is the one before, since [parseInt] of the object is [NaN] (or throws);
    hence after [initialize] on a new [SyncPlatform] the interval is the
    constructor's 60000, whatever the document holds. *)
Theorem C10_initialize_keeps_default_interval :
  forall (w : World) (args : list string),
    (forall all_config s,
        blocksSyncTime (this (snd (initialize w all_config args s))) = blocksSyncTime (this s)
        \/ blocksSyncTime (this (snd (initialize w all_config args s)))
           = interval_after all_config s)
    /\ (forall fields,
          Js.parseInt (Js.Obj fields) = Normal None
          \/ Js.parseInt (Js.Obj fields) = Throw TypeError)
    /\ (forall fields s,
          blocksSyncTime (this (snd (initialize w (Js.Obj fields) args s)))
          = blocksSyncTime (this s))
    /\ (forall fields now,
          blocksSyncTime (this (snd (initialize w (Js.Obj fields) args (boot now)))) = 60000).
Proof.
  intros w args.
  assert (K : forall fields s,
             blocksSyncTime (this (snd (initialize w (Js.Obj fields) args s)))
             = blocksSyncTime (this s)).
  { intros fields s.
    destruct (initialize_interval w (Js.Obj fields) args s) as [H | H]; auto.
    now rewrite H, interval_after_Obj. }
  repeat split.
  - intros. apply initialize_interval.
  - apply parseInt_Obj.
  - exact K.
  - intros. now rewrite K.
Qed.

(* ================================================================== *)
(** ** The choice of network and client *)

Lemma select_no_args net entry others default s :
  Js.get entry "name" = Normal default ->
  select (Js.Obj ((net, entry) :: others)) [] s
  = (Normal tt, with_this (set_client_name default)
                  (with_this (set_network_name (Js.Str net)) s)).
Proof.
  intro H. unfold select. run_monad. simpl.
  unfold Js.get_by. simpl. rewrite String.eqb_refl, H. reflexivity.
Qed.

Lemma select_one_arg nc net entry clients c others s :
  Js.get nc net = Normal entry ->
  Js.get entry "clients" = Normal clients ->
  Js.keys clients = Normal (c :: others) ->
  select nc [net] s
  = (Normal tt, with_this (set_client_name (Js.Str c))
                  (with_this (set_network_name (Js.Str net)) s)).
Proof.
  intros H1 H2 H3. unfold select. run_monad. simpl.
  unfold Js.get_by. simpl. rewrite H1, H2, H3. reflexivity.
Qed.

Lemma select_two_args nc net c more s :
  select nc (net :: c :: more) s
  = (Normal tt, with_this (set_client_name (Js.Str c))
                  (with_this (set_network_name (Js.Str net)) s)).
Proof. reflexivity. Qed.

(** Once the choice is made the rest of [initialize] does not touch it. *)
Lemma initialize_names w cfg args nc s s1 :
  Js.get cfg (NETWORK_CONFIGS w) = Normal nc ->
  select nc args s = (Normal tt, s1) ->
  names (snd (initialize w cfg args s)) = names s1.
Proof.
  intros G S. unfold initialize. run_monad. rewrite G, S.
  pose proof (setBlocksSyncTime_keeps_names cfg s1) as K1.
  destruct (setBlocksSyncTime cfg s1) as [[[] | e | ] s2]; simpl in K1; try exact K1.
  rewrite <- K1. apply (bring_up_keeps_names w nc s2).
Qed.


(** C5: the selection rule.  With the networks of the configuration at hand,
    [initialize] settles on: the first network and the [name] recorded in its
    entry when called with no argument; the named network and the first
    client listed under it with one argument; the two given names with two
    arguments.  The names stay as chosen to the end of [initialize]. *)
Theorem C5_initialize_resolves_selection :
  forall (w : World) (all_config : Js.value) (networks : list (string * Js.value))
         (s : Process),
    Js.get all_config (NETWORK_CONFIGS w) = Normal (Js.Obj networks) ->
    (forall net entry others default,
        networks = (net, Js.Obj entry) :: others ->
        Js.own entry "name" = Some default ->
        names (snd (initialize w all_config [] s)) = (Js.Str net, default))
    /\ (forall net entry c profile others,
          Js.own networks net = Some (Js.Obj entry) ->
          Js.own entry "clients" = Some (Js.Obj ((c, profile) :: others)) ->
          names (snd (initialize w all_config [net] s)) = (Js.Str net, Js.Str c))
    /\ (forall net c,
          names (snd (initialize w all_config [net; c] s)) = (Js.Str net, Js.Str c)).
Proof.
  intros w cfg networks s G. repeat split.
  - intros net entry others default -> Hname.
    erewrite initialize_names; [ | exact G | apply select_no_args ].
    + reflexivity.
    + simpl. now rewrite Hname.
  - intros net entry c profile others Hnet Hclients.
    erewrite initialize_names;
      [ | exact G | apply (select_one_arg _ net (Js.Obj entry)
                             (Js.Obj ((c, profile) :: others)) c (map fst others)) ].
    + reflexivity.
    + simpl. now rewrite Hnet.
    + simpl. now rewrite Hclients.
    + reflexivity.
  - intros net c.
    erewrite initialize_names; [ | exact G | apply select_two_args ].
    reflexivity.
Qed.

Lemma C5_initialize_resolves_selection_witness :
  names (snd (initialize (friendly ["mychannel"] ["mychannel"]) config_net1 [] (boot 0)))
  = (Js.Str "net1", Js.Str "clientA")
  /\ names (snd (initialize (friendly ["mychannel"] ["mychannel"]) config_net1 ["net1"] (boot 0)))
     = (Js.Str "net1", Js.Str "clientA")
  /\ names (snd (initialize (friendly ["mychannel"] ["mychannel"]) config_net1
                   ["net1"; "clientA"] (boot 0)))
     = (Js.Str "net1", Js.Str "clientA").
Proof.
  destruct (C5_initialize_resolves_selection
              (friendly ["mychannel"] ["mychannel"]) config_net1
              [("net1", Js.Obj [("name", Js.Str "clientA");
                                ("clients", Js.Obj [("clientA", Js.Obj [])])])]
              (boot 0) eq_refl) as (H0 & H1 & H2).
  split; [ | split ].
  - eapply H0; reflexivity.
  - eapply H1; reflexivity.
  - apply H2.
Defined.

(** Splits on every answer still open in the goal. *)
Ltac split_answers :=
  repeat match goal with
         | |- context [match ?x with _ => _ end] =>
             lazymatch x with
             | context [match _ with _ => _ end] => fail
             | _ => destruct x
             end
         end.

(** C6, as the code has it: the names are not checked against the
    configuration and no typed configuration error exists.
    - One argument naming a network the configuration lacks: reading
      [clients] of [undefined] throws a [TypeError]; no collaborator has been
      called and only [network_name] has been written.
    - Two arguments: both names are stored as given, and whatever
      [network_configs[network_name]] reads, [undefined] for a network the
      configuration lacks, is handed to [FabricUtils.setOrgEnrolmentPath].
    - The typed error of [initialize] is [ExplorerError] with message
      [ERROR_2011], thrown when [createFabricClient] answers no client. *)
Theorem C6_initialize_does_not_validate_names :
  forall (w : World) (all_config : Js.value) (networks : list (string * Js.value))
         (s : Process),
    Js.get all_config (NETWORK_CONFIGS w) = Normal (Js.Obj networks) ->
    (forall net,
        Js.own networks net = None -> Js.inherited net = false ->
        initialize w all_config [net] s
        = (Throw TypeError, with_this (set_network_name (Js.Str net)) s))
    /\ (forall net c configs,
          Js.parseInt all_config = Normal None ->
          Js.get (Js.Obj networks) net = Normal configs ->
          names (snd (initialize w all_config [net; c] s)) = (Js.Str net, Js.Str c)
          /\ In (SetOrgEnrolmentPath configs) (log (snd (initialize w all_config [net; c] s))))
    /\ (forall net c configs configs',
          Js.parseInt all_config = Normal None ->
          Js.get (Js.Obj networks) net = Normal configs ->
          setOrgEnrolmentPath w configs = Normal configs' ->
          createFabricClient w configs' (Js.Str c) = Normal None ->
          fst (initialize w all_config [net; c] s) = Throw (ExplorerError "ERROR_2011")).
Proof.
  intros w cfg networks s G.
  assert (T : Js.truthy cfg = true).
  { destruct cfg; simpl in G; try discriminate. reflexivity. }
  split; [ | split ].
  - intros net Hnet Hinh.
    unfold initialize. run_monad. rewrite G.
    unfold select. run_monad. simpl.
    unfold Js.get_by. simpl. rewrite Hnet, Hinh. reflexivity.
  - intros net c configs P Hget. split.
    + erewrite initialize_names; [ | exact G | apply select_two_args ]. reflexivity.
    + unfold initialize. run_monad. rewrite G, select_two_args.
      rewrite (setBlocksSyncTime_NaN cfg _ T P).
      unfold bring_up, start, open_streams, setTimeout_sync. run_monad. simpl.
      unfold Js.get_by. cbn [Js.ToString cbind]. rewrite Hget.
      split_answers; simpl; rewrite ?in_app_iff; simpl; tauto.
  - intros net c configs configs' P Hget Hpath Hclient.
    unfold initialize. run_monad. rewrite G, select_two_args.
    rewrite (setBlocksSyncTime_NaN cfg _ T P).
    unfold bring_up. run_monad. simpl.
    unfold Js.get_by. cbn [Js.ToString cbind]. rewrite Hget, Hpath, Hclient. reflexivity.
Qed.

Lemma C6_initialize_does_not_validate_names_witness :
  initialize (friendly [] []) config_net1 ["nope"] (boot 0)
  = (Throw TypeError, with_this (set_network_name (Js.Str "nope")) (boot 0)).
Proof.
  destruct (C6_initialize_does_not_validate_names
              (friendly [] []) config_net1
              [("net1", Js.Obj [("name", Js.Str "clientA");
                                ("clients", Js.Obj [("clientA", Js.Obj [])])])]
              (boot 0) eq_refl) as (H & _ & _).
  apply H; reflexivity.
Defined.

(** C6, as stated, fails.  On the configuration of the specification, the one
    argument ["nope"] makes [initialize] throw a [TypeError], which is no
    [ExplorerError]; and the two arguments ["nope"], ["clientA"] raise
    nothing in [initialize] itself: [FabricUtils.setOrgEnrolmentPath] is
    called with [undefined], and with collaborators that go along the method
    runs to its end. *)
Lemma C6_absent_network_is_not_a_typed_error :
  fst (initialize (friendly [] []) config_net1 ["nope"] (boot 0)) = Throw TypeError
  /\ (forall code,
         fst (initialize (friendly [] []) config_net1 ["nope"] (boot 0))
         <> Throw (ExplorerError code))
  /\ fst (initialize (friendly [] []) config_net1 ["nope"; "clientA"] (boot 0)) = Normal tt
  /\ In (SetOrgEnrolmentPath Js.Undefined)
        (log (snd (initialize (friendly [] []) config_net1 ["nope"; "clientA"] (boot 0)))).
Proof.
  repeat split.
  - intros code H. discriminate H.
  - vm_compute. tauto.
Qed.

(* ================================================================== *)
(** ** Registration and the first timer *)

Lemma select_keeps_tasks nc args : keeps tasks (select nc args).
Proof. unfold select. frame. Qed.

Lemma select_keeps_clock nc args : keeps clock (select nc args).
Proof. unfold select. frame. Qed.

Lemma setBlocksSyncTime_keeps_tasks v : keeps tasks (setBlocksSyncTime v).
Proof. unfold setBlocksSyncTime. frame. Qed.

Lemma setBlocksSyncTime_keeps_clock v : keeps clock (setBlocksSyncTime v).
Proof. unfold setBlocksSyncTime. frame. Qed.

(** What [initialize] has in hand when it enters [bring_up], in terms of the
    process it started from. *)
Lemma initialize_enters_bring_up w cfg args s :
  (exists c, initialize w cfg args s = (c, snd (initialize w cfg args s))
             /\ c <> Normal tt
             /\ log (snd (initialize w cfg args s)) = log s
             /\ timers (snd (initialize w cfg args s)) = timers s
             /\ eventHub (this (snd (initialize w cfg args s))) = eventHub (this s))
  \/ (exists nc s2,
         initialize w cfg args s = bring_up w nc s2
         /\ log s2 = log s /\ timers s2 = timers s /\ tasks s2 = tasks s
         /\ clock s2 = clock s
         /\ eventHub (this s2) = eventHub (this s)
         /\ (blocksSyncTime (this s2) = blocksSyncTime (this s)
             \/ blocksSyncTime (this s2) = interval_after cfg s)).
Proof.
  unfold initialize. run_monad.
  destruct (Js.get cfg (NETWORK_CONFIGS w)) as [nc | e | ];
    [ | left; eexists; repeat split; congruence
      | left; eexists; repeat split; congruence ].
  pose proof (select_keeps_log nc args s) as L1.
  pose proof (select_keeps_timers nc args s) as T1.
  pose proof (select_keeps_eventHub nc args s) as E1.
  pose proof (select_keeps_tasks nc args s) as K1.
  pose proof (select_keeps_clock nc args s) as C1.
  pose proof (select_keeps_interval nc args s) as I1.
  cbv beta in *.
  destruct (select nc args s) as [[[] | e | ] s1]; simpl in *;
    [ | left; eexists; repeat split; congruence
      | left; eexists; repeat split; congruence ].
  pose proof (setBlocksSyncTime_keeps_log cfg s1) as L2.
  pose proof (setBlocksSyncTime_keeps_timers cfg s1) as T2.
  pose proof (setBlocksSyncTime_keeps_eventHub cfg s1) as E2.
  pose proof (setBlocksSyncTime_keeps_tasks cfg s1) as K2.
  pose proof (setBlocksSyncTime_keeps_clock cfg s1) as C2.
  assert (I2 : blocksSyncTime (this (snd (setBlocksSyncTime cfg s1))) = interval_after cfg s).
  { fold (interval_after cfg s1). now apply interval_after_depends. }
  cbv beta in *.
  destruct (setBlocksSyncTime cfg s1) as [[[] | e | ] s2]; simpl in *;
    [ | left; eexists; repeat split; congruence
      | left; eexists; repeat split; congruence ].
  right. exists nc, s2. repeat split; try congruence. now right.
Qed.

(** The effect of [bring_up] when registration is reached and reports
    failure: it stops there. *)
Lemma bring_up_registration_fails w nc s configs configs' cl res :
  Js.get_by nc (network_name (this s)) = Normal configs ->
  setOrgEnrolmentPath w configs = Normal configs' ->
  createFabricClient w configs' (client_name (this s)) = Normal (Some cl) ->
  synchNetworkConfigToDB w cl = Normal res ->
  Js.truthy res = false ->
  bring_up w nc s
  = (Normal tt,
     logged [SynchNetworkConfigToDB]
       (with_this (set_client (Some cl))
          (logged [CreateFabricClient configs' (client_name (this s))]
             (with_this (set_client_configs configs')
                (logged [SetOrgEnrolmentPath configs]
                   (logged [HfcConfigSet "initialize-with-discovery" (Js.Bool true)]
                      (logged [HfcConfigSet "discovery-cache-life"
                                 (Js.Num (blocksSyncTime (this s)))] s))))))).
Proof.
  intros H1 H2 H3 H4 H5. unfold bring_up. run_monad. simpl.
  rewrite H1, H2, H3. simpl. rewrite H4, H5. reflexivity.
Qed.

(** A run of [bring_up] that calls [synchNetworkConfigToDB] has built a
    client, which [this.client] still holds at the end. *)
Lemma bring_up_reaches_registration w nc s :
  ~ In SynchNetworkConfigToDB (log s) ->
  In SynchNetworkConfigToDB (log (snd (bring_up w nc s))) ->
  exists configs configs' cl,
    Js.get_by nc (network_name (this s)) = Normal configs
    /\ setOrgEnrolmentPath w configs = Normal configs'
    /\ createFabricClient w configs' (client_name (this s)) = Normal (Some cl)
    /\ client (this (snd (bring_up w nc s))) = Some cl.
Proof.
  intros Hs. unfold bring_up, start, open_streams, setTimeout_sync. run_monad. simpl.
  destruct (Js.get_by nc (network_name (this s))) as [configs | e | ] eqn:E1; simpl;
    try (rewrite ?in_app_iff; simpl; intuition discriminate).
  destruct (setOrgEnrolmentPath w configs) as [configs' | e | ] eqn:E2; simpl;
    try (rewrite ?in_app_iff; simpl; intuition discriminate).
  destruct (createFabricClient w configs' (client_name (this s))) as [[cl | ] | e | ] eqn:E3;
    simpl; try (rewrite ?in_app_iff; simpl; intuition discriminate).
  intros _. exists configs, configs', cl. repeat split; try assumption.
  destruct (synchNetworkConfigToDB w cl) as [res | e | ]; simpl; try reflexivity.
  destruct (Js.truthy res); simpl; try reflexivity.
  destruct (snd (eventHub_initialize w cl)); reflexivity.
Qed.

(** C7: a run of [initialize] on a new object in which
    [synchNetworkConfigToDB] is called and answers a falsy result returns
    normally at that point: the event hub is still null, no timer is pending,
    and neither the constructor of [FabricEvent] nor its [initialize] has been
    called. *)
Theorem C7_failed_registration_stops_quietly :
  forall (w : World) (all_config : Js.value) (args : list string) (now : Z)
         (cl : Client) (res : Js.value),
    In SynchNetworkConfigToDB (log (snd (initialize w all_config args (boot now)))) ->
    client (this (snd (initialize w all_config args (boot now)))) = Some cl ->
    synchNetworkConfigToDB w cl = Normal res ->
    Js.truthy res = false ->
    fst (initialize w all_config args (boot now)) = Normal tt
    /\ eventHub (this (snd (initialize w all_config args (boot now)))) = None
    /\ timers (snd (initialize w all_config args (boot now))) = []
    /\ ~ In NewFabricEvent (log (snd (initialize w all_config args (boot now))))
    /\ ~ In EventHubInitialize (log (snd (initialize w all_config args (boot now)))).
Proof.
  intros w cfg args now cl res Hin Hcl Hres Hfalsy.
  destruct (initialize_enters_bring_up w cfg args (boot now))
    as [(c & _ & _ & L & _) | (nc & s2 & E & L & T & _ & _ & H & _)].
  - rewrite L in Hin. contradiction.
  - rewrite E in *.
    destruct (bring_up_reaches_registration w nc s2) as (configs & configs' & cl' & G1 & G2 & G3 & G4);
      [ rewrite L; simpl; tauto | exact Hin | ].
    rewrite G4 in Hcl. injection Hcl as ->.
    rewrite (bring_up_registration_fails w nc s2 configs configs' cl res) by assumption.
    simpl. rewrite L, T, H. simpl. repeat split; intuition discriminate.
Qed.

Lemma C7_failed_registration_stops_quietly_witness :
  fst (initialize
         (unregistered ["mychannel"])
         config_net1 [] (boot 0)) = Normal tt
  /\ eventHub (this (snd (initialize
         (unregistered ["mychannel"])
         config_net1 [] (boot 0)))) = None.
Proof.
  destruct (C7_failed_registration_stops_quietly
              (unregistered ["mychannel"])
              config_net1 [] 0 {| getChannels := ["mychannel"] |} (Js.Bool false))
    as (H1 & H2 & _).
  - vm_compute. tauto.
  - reflexivity.
  - reflexivity.
  - reflexivity.
  - split; assumption.
Defined.

Lemma loop_calls_logged c s :
  of_loop c = false -> loop_calls (logged [c] s) = loop_calls s.
Proof.
  intro H. unfold loop_calls, logged. simpl.
  rewrite filter_app. simpl. rewrite H. apply app_nil_r.
Qed.

Lemma bring_up_keeps_loop_calls w nc : keeps loop_calls (bring_up w nc).
Proof.
  unfold bring_up, start. frame;
    try (apply keeps_emit; intro; now apply loop_calls_logged).
Qed.

Lemma bring_up_keeps_tasks w nc : keeps tasks (bring_up w nc).
Proof. unfold bring_up, start. frame. Qed.

Lemma bring_up_keeps_clock w nc : keeps clock (bring_up w nc).
Proof. unfold bring_up, start. frame. Qed.

(** A normal return of [bring_up] either stopped at the registration, with
    the event hub and the timers as they were, or went through [start], with
    an event hub and one more timer, due one delay from now. *)
Lemma bring_up_returns w nc s s' :
  bring_up w nc s = (Normal tt, s') ->
  (eventHub (this s') = eventHub (this s) /\ timers s' = timers s)
  \/ (eventHub (this s') <> None
      /\ timers s' = (timers s ++ [clock s + Js.timeout_delay (blocksSyncTime (this s))])%list).
Proof.
  unfold bring_up, start, open_streams, setTimeout_sync. run_monad. simpl.
  destruct (Js.get_by nc (network_name (this s))) as [configs | e | ]; try discriminate.
  destruct (setOrgEnrolmentPath w configs) as [configs' | e | ]; try discriminate.
  destruct (createFabricClient w configs' (client_name (this s))) as [[cl | ] | e | ];
    try discriminate.
  destruct (synchNetworkConfigToDB w cl) as [res | e | ]; try discriminate.
  destruct (Js.truthy res); simpl.
  - destruct (snd (eventHub_initialize w cl)) as [[] | e | ]; try discriminate.
    intro H. injection H as <-. right. simpl. split; [ discriminate | reflexivity ].
  - intro H. injection H as <-. left. simpl. auto.
Qed.

(** A normal return of [initialize] means the configuration was an object. *)
Lemma initialize_returns_on_object w cfg args s s' :
  initialize w cfg args s = (Normal tt, s') -> exists fields, cfg = Js.Obj fields.
Proof.
  unfold initialize. run_monad.
  destruct cfg; simpl; try discriminate. eauto.
Qed.

(* ------------------------------------------------------------------ *)
(** *** Steps of the event loop before the first timer is due *)

Lemma resume_clock entries s : clock (resume entries s) = clock s.
Proof.
  unfold resume. destruct entries; [ reflexivity | ].
  destruct (eventHub (this s)); [ | reflexivity ].
  match goal with |- context [loop ?f ?l] => destruct (loop f l) end. reflexivity.
Qed.

Lemma resume_this entries s : this (resume entries s) = this s.
Proof.
  unfold resume. destruct entries; [ reflexivity | ].
  destruct (eventHub (this s)); [ | reflexivity ].
  match goal with |- context [loop ?f ?l] => destruct (loop f l) end. reflexivity.
Qed.

Lemma resume_timers entries s : timers (resume entries s) = timers s.
Proof.
  unfold resume. destruct entries; [ reflexivity | ].
  destruct (eventHub (this s)); [ | reflexivity ].
  match goal with |- context [loop ?f ?l] => destruct (loop f l) end. reflexivity.
Qed.

Lemma start_loop_clock s : clock (start_loop s) = clock s.
Proof.
  unfold start_loop. destruct (client (this s)); [ apply resume_clock | reflexivity ].
Qed.

Lemma start_loop_this s : this (start_loop s) = this s.
Proof.
  unfold start_loop. destruct (client (this s)); [ apply resume_this | reflexivity ].
Qed.

Lemma start_loop_timers s : timers (start_loop s) = timers s.
Proof.
  unfold start_loop. destruct (client (this s)); [ apply resume_timers | reflexivity ].
Qed.

(** A stretch of the tick body writes to the log and to the suspended loops
    only. *)
Ltac tick_stretch :=
  unfold continue_tick;
  match goal with
  | |- context [eventHub (this ?s)] => destruct (eventHub (this s)); [ | reflexivity ]
  end;
  match goal with |- context [tick_loop ?r ?f ?l] => destruct (tick_loop r f l) end;
  reflexivity.

Lemma continue_tick_clock entries s : clock (continue_tick entries s) = clock s.
Proof. tick_stretch. Qed.

Lemma continue_tick_this entries s : this (continue_tick entries s) = this s.
Proof. tick_stretch. Qed.

Lemma continue_tick_timers entries s : timers (continue_tick entries s) = timers s.
Proof. tick_stretch. Qed.

Lemma continue_tick_rejected entries s : rejected (continue_tick entries s) = rejected s.
Proof. tick_stretch. Qed.

Lemma continue_tick_replaced entries s : replaced (continue_tick entries s) = replaced s.
Proof. tick_stretch. Qed.

Lemma eventHub_synchBlocks_clock s : clock (eventHub_synchBlocks s) = clock s.
Proof.
  unfold eventHub_synchBlocks.
  destruct (client (this s)); [ apply continue_tick_clock | reflexivity ].
Qed.

Lemma eventHub_synchBlocks_this s : this (eventHub_synchBlocks s) = this s.
Proof.
  unfold eventHub_synchBlocks.
  destruct (client (this s)); [ apply continue_tick_this | reflexivity ].
Qed.

Lemma eventHub_synchBlocks_timers s : timers (eventHub_synchBlocks s) = timers s.
Proof.
  unfold eventHub_synchBlocks.
  destruct (client (this s)); [ apply continue_tick_timers | reflexivity ].
Qed.

(** What a run of [sync] comes to: the tick body has been started and the
    next timer is set, one delay of the interval from now. *)
Lemma sync_runs s s' :
  sync s = Some s' ->
  exists hub,
    eventHub (this s) = Some hub
    /\ s' = set_timers
              (timers s ++ [clock s + Js.timeout_delay (blocksSyncTime (this s))])
              (eventHub_synchBlocks s).
Proof.
  unfold sync. destruct (eventHub (this s)) as [hub | ]; [ | discriminate ].
  intro H. injection H as <-. exists hub. split; [ reflexivity | ].
  now rewrite eventHub_synchBlocks_timers, eventHub_synchBlocks_clock,
    eventHub_synchBlocks_this.
Qed.

Lemma sync_with_hub s hub :
  eventHub (this s) = Some hub ->
  sync s = Some (set_timers
                   (timers s ++ [clock s + Js.timeout_delay (blocksSyncTime (this s))])
                   (eventHub_synchBlocks s)).
Proof.
  intro H. unfold sync. rewrite H.
  now rewrite eventHub_synchBlocks_timers, eventHub_synchBlocks_clock,
    eventHub_synchBlocks_this.
Qed.

(** The firing of a timer, taken apart. *)
Lemma step_Fire s s' :
  step s Fire = Some s' ->
  exists due hub,
    earliest (timers s) = Some due /\ due <= clock s
    /\ eventHub (this s) = Some hub
    /\ s' = set_timers
              (remove_first due (timers s)
                 ++ [clock s + Js.timeout_delay (blocksSyncTime (this s))])
              (eventHub_synchBlocks (set_timers (remove_first due (timers s)) s)).
Proof.
  simpl. destruct (earliest (timers s)) as [due | ]; [ | discriminate ].
  destruct (due <=? clock s) eqn:E; [ | discriminate ].
  intro H. apply sync_runs in H. destruct H as (hub & Hh & ->).
  exists due, hub. apply Z.leb_le in E. auto.
Qed.

(** The settlement of an awaited promise, taken apart. *)
Lemma step_Settle s i how s' :
  step s (Settle i how) = Some s' ->
  exists t,
    nth_error (tasks s) i = Some t
    /\ s' = (if ticked t
             then continue_tick (remaining t) (set_tasks (remove_nth i (tasks s)) s)
             else match how with
                  | None => resume (remaining t) (set_tasks (remove_nth i (tasks s)) s)
                  | Some e => reject e (set_tasks (remove_nth i (tasks s)) s)
                  end).
Proof.
  simpl. destruct (nth_error (tasks s) i) as [t | ]; [ | discriminate ].
  intro H. injection H as <-. eauto.
Qed.

Lemma step_clock s e s' : step s e = Some s' -> clock s <= clock s'.
Proof.
  destruct e as [ms | | i how | c | c | ].
  - simpl. destruct (0 <=? ms) eqn:E; [ | discriminate ].
    apply Z.leb_le in E. intro H. injection H as <-. simpl. lia.
  - intro H. apply step_Fire in H. destruct H as (due & hub & _ & _ & _ & ->).
    simpl. rewrite eventHub_synchBlocks_clock. simpl. lia.
  - intro H. apply step_Settle in H. destruct H as (t & _ & ->).
    destruct (ticked t); [ rewrite continue_tick_clock; simpl; lia | ].
    destruct how; [ simpl; lia | rewrite resume_clock; simpl; lia ].
  - simpl. destruct (eventHub (this s)) as [hub | ]; [ | discriminate ].
    destruct (hub_isChannelEventHubConnected hub c);
      intro H; injection H as <-; simpl; lia.
  - simpl. destruct (eventHub (this s)) as [hub | ]; [ | discriminate ].
    intro H; injection H as <-; simpl; lia.
  - simpl. intro H. injection H as <-. unfold destroy. run_monad.
    destruct (eventHub (this s)); simpl; lia.
Qed.

Lemma run_clock events : forall s s', run s events = Some s' -> clock s <= clock s'.
Proof.
  induction events as [ | e rest IH]; simpl; intros s s'.
  - intro H. injection H as <-. lia.
  - destruct (step s e) as [s1 | ] eqn:E; [ | discriminate ].
    intro H. apply step_clock in E. apply IH in H. lia.
Qed.

(** While the only timer is not due, nothing of the controller runs. *)
Lemma step_idle due s e s' :
  timers s = [due] -> idle s -> clock s' < due -> step s e = Some s' ->
  timers s' = [due] /\ idle s'.
Proof.
  intros T [K L] Hdue H. pose proof (step_clock _ _ _ H) as Hmono.
  unfold idle. destruct e as [ms | | i how | c | c | ].
  - simpl in H. destruct (0 <=? ms); [ | discriminate ]. injection H as <-. auto.
  - apply step_Fire in H. destruct H as (d & hub & E & Hd & _).
    rewrite T in E. simpl in E. injection E as <-. lia.
  - apply step_Settle in H. destruct H as (t & E & _).
    rewrite K in E. destruct i; discriminate.
  - simpl in H. destruct (eventHub (this s)) as [hub | ]; [ | discriminate ].
    destruct (hub_isChannelEventHubConnected hub c); injection H as <-; auto.
  - simpl in H. destruct (eventHub (this s)) as [hub | ]; [ | discriminate ].
    injection H as <-; auto.
  - simpl in H. injection H as <-. unfold destroy. run_monad.
    destruct (eventHub (this s)); simpl; auto.
    repeat split; auto.
    unfold loop_calls in *. simpl. rewrite filter_app, L. reflexivity.
Qed.

Lemma run_idle due events : forall s s',
  timers s = [due] -> idle s -> run s events = Some s' -> clock s' < due ->
  timers s' = [due] /\ idle s'.
Proof.
  induction events as [ | e rest IH]; simpl; intros s s' T I H Hdue.
  - injection H as <-. auto.
  - destruct (step s e) as [s1 | ] eqn:E; [ | discriminate ].
    pose proof (run_clock _ _ _ H) as Hmono.
    destruct (step_idle due s e s1 T I) as [T1 I1]; [ lia | exact E | ].
    now apply (IH s1 s').
Qed.

(** After [initialize] has gone through [start] on an object that had no
    timer, no loop and no event hub: one timer is pending, due one
    [setTimeout] delay of the interval from now, and until then it stays
    pending and nothing of the controller runs. *)
Lemma first_tick_after_initialize w cfg args s0 s :
  timers s0 = [] -> idle s0 -> eventHub (this s0) = None ->
  initialize w cfg args s0 = (Normal tt, s) ->
  eventHub (this s) <> None ->
  blocksSyncTime (this s) = blocksSyncTime (this s0)
  /\ clock s = clock s0
  /\ timers s = [clock s0 + Js.timeout_delay (blocksSyncTime (this s0))]
  /\ idle s
  /\ (forall events s',
        run s events = Some s' ->
        clock s' < clock s0 + Js.timeout_delay (blocksSyncTime (this s0)) ->
        timers s' = [clock s0 + Js.timeout_delay (blocksSyncTime (this s0))] /\ idle s'
        /\ forall c, ~ In (SynchBlocks c) (log s')).
Proof.
  intros T0 [K0 L0] H0 Hinit Hhub.
  destruct (initialize_returns_on_object _ _ _ _ _ Hinit) as [fields ->].
  destruct (initialize_enters_bring_up w (Js.Obj fields) args s0)
    as [(c & E & Hc & _) | (nc & s2 & E & L & T & K & C & H & I)].
  { rewrite Hinit in E. simpl in E. injection E as <-. congruence. }
  rewrite Hinit in E. symmetry in E.
  assert (I2 : blocksSyncTime (this s2) = blocksSyncTime (this s0)).
  { destruct I as [I | I]; rewrite I; [ | rewrite interval_after_Obj ]; reflexivity. }
  assert (Hbst : blocksSyncTime (this s) = blocksSyncTime (this s0)).
  { pose proof (bring_up_keeps_interval w nc s2) as Q. cbv beta in Q.
    rewrite E in Q. simpl in Q. congruence. }
  assert (Htasks : tasks s = []).
  { pose proof (bring_up_keeps_tasks w nc s2) as Q. rewrite E in Q. simpl in Q.
    congruence. }
  assert (Hcalls : loop_calls s = []).
  { pose proof (bring_up_keeps_loop_calls w nc s2) as Q. rewrite E in Q. simpl in Q.
    rewrite Q. unfold loop_calls in *. rewrite L. exact L0. }
  assert (Hclock : clock s = clock s0).
  { pose proof (bring_up_keeps_clock w nc s2) as Q. rewrite E in Q. simpl in Q.
    congruence. }
  assert (Htimers : timers s = [clock s0 + Js.timeout_delay (blocksSyncTime (this s0))]).
  { destruct (bring_up_returns w nc s2 s E) as [[Hh _] | [_ Ht]].
    - rewrite Hh, H in Hhub. congruence.
    - rewrite Ht, T, T0, C, I2. reflexivity. }
  assert (Hidle : idle s) by (split; assumption).
  repeat split; try assumption; try (eapply run_idle; eauto).
  intros c Hin.
  destruct (run_idle _ events s s' Htimers Hidle) as [_ [_ Q]]; auto.
  unfold loop_calls in Q.
  assert (In (SynchBlocks c) (filter of_loop (log s'))) as Hf
      by (apply filter_In; split; [ exact Hin | reflexivity ]).
  rewrite Q in Hf. contradiction.
Qed.

Lemma timeout_delay_cases d :
  (1 <= d <= 2147483647 -> Js.timeout_delay d = d)
  /\ (~ 1 <= d <= 2147483647 -> Js.timeout_delay d = 1).
Proof.
  unfold Js.timeout_delay. split; intro H.
  - destruct H as [H1 H2]. apply Z.leb_le in H1, H2. now rewrite H1, H2.
  - destruct (1 <=? d) eqn:E1; [ | reflexivity ].
    destruct (d <=? 2147483647) eqn:E2; [ | reflexivity ].
    apply Z.leb_le in E1, E2. exfalso. apply H. lia.
Qed.

(** C8, as the code has it: the first tick is never run at startup; it is
    handed to [setTimeout] with the interval as delay.  When [initialize] on
    a new object has gone through [start] at time [now], the interval is the
    constructor's 60000, the one pending timer is due at [now + 60000] and
    nothing of the controller has run; whatever happens next, as long as the
    clock reads less than [now + 60000] that timer is still pending, no loop
    has been started and [synchBlocks] has not been called; once 60000 ms
    have passed the timer can fire.  With an interval set beforehand the same
    holds with the delay [setTimeout] makes of it: the interval itself from 1
    to 2147483647 ms, and 1 ms for any other. *)
Theorem C8_first_tick_waits_one_delay :
  forall (w : World) (all_config : Js.value) (args : list string),
    (forall (now : Z) (s : Process),
        initialize w all_config args (boot now) = (Normal tt, s) ->
        eventHub (this s) <> None ->
        blocksSyncTime (this s) = 60000
        /\ timers s = [now + 60000]
        /\ idle s
        /\ (forall events s',
              run s events = Some s' -> clock s' < now + 60000 ->
              timers s' = [now + 60000] /\ idle s'
              /\ forall c, ~ In (SynchBlocks c) (log s'))
        /\ (exists s', run s [Elapse 60000; Fire] = Some s'))
    /\ (forall (s0 s : Process),
          timers s0 = [] -> idle s0 -> eventHub (this s0) = None ->
          initialize w all_config args s0 = (Normal tt, s) ->
          eventHub (this s) <> None ->
          timers s = [clock s0 + Js.timeout_delay (blocksSyncTime (this s0))]
          /\ idle s
          /\ (forall events s',
                run s events = Some s' ->
                clock s' < clock s0 + Js.timeout_delay (blocksSyncTime (this s0)) ->
                timers s' = [clock s0 + Js.timeout_delay (blocksSyncTime (this s0))]
                /\ idle s'
                /\ forall c, ~ In (SynchBlocks c) (log s'))
          /\ (1 <= blocksSyncTime (this s0) <= 2147483647 ->
              Js.timeout_delay (blocksSyncTime (this s0)) = blocksSyncTime (this s0))
          /\ (~ 1 <= blocksSyncTime (this s0) <= 2147483647 ->
              Js.timeout_delay (blocksSyncTime (this s0)) = 1)).
Proof.
  intros w cfg args. split.
  - intros now s Hinit Hhub.
    destruct (first_tick_after_initialize w cfg args (boot now) s)
      as (B & C & T & I & R); try assumption; try reflexivity.
    { split; reflexivity. }
    simpl in *. change (Js.timeout_delay 60000) with 60000 in *.
    repeat split; try assumption; try apply I; try (eapply R; eassumption).
    destruct (eventHub (this s)) as [hub | ] eqn:Hh; [ | congruence ].
    rewrite T, C. simpl.
    replace (now + 60000 <=? now + 60000) with true by (symmetry; apply Z.leb_refl).
    rewrite (sync_with_hub _ hub) by exact Hh. eauto.
  - intros s0 s T0 I0 H0 Hinit Hhub.
    destruct (first_tick_after_initialize w cfg args s0 s)
      as (B & C & T & I & R); try assumption.
    repeat split; try assumption; try apply I; try (eapply R; eassumption);
      apply timeout_delay_cases.
Qed.

Lemma C8_first_tick_waits_one_delay_witness :
  timers (snd (initialize (friendly ["mychannel"] ["mychannel"]) config_net1 [] (boot 0)))
  = [0 + 60000].
Proof.
  destruct (C8_first_tick_waits_one_delay
              (friendly ["mychannel"] ["mychannel"]) config_net1 []) as [H _].
  destruct (H 0 (snd (initialize (friendly ["mychannel"] ["mychannel"])
                        config_net1 [] (boot 0)))) as (_ & T & _).
  - reflexivity.
  - vm_compute. discriminate.
  - exact T.
Defined.

(** C8, as stated, fails.  [setBlocksSyncTime("35792")] sets the interval to
    2147520000 ms, more than [setTimeout] takes; [initialize] then succeeds
    and keeps that interval, the timer it sets is due after 1 ms, and the
    first tick runs at time 1, long before one interval has passed. *)
Lemma C8_long_interval_fires_after_1ms :
  fst (initialize (friendly ["mychannel"] ["mychannel"]) config_net1 []
         (snd (setBlocksSyncTime (Js.Str "35792") (boot 0)))) = Normal tt
  /\ exists s s',
      s = snd (initialize (friendly ["mychannel"] ["mychannel"]) config_net1 []
                 (snd (setBlocksSyncTime (Js.Str "35792") (boot 0))))
      /\ blocksSyncTime (this s) = 2147520000
      /\ timers s = [1]
      /\ run s [Elapse 1; Fire] = Some s'
      /\ clock s' = 1
      /\ In (SynchBlocks "mychannel") (log s')
      /\ clock s' < 0 + blocksSyncTime (this s).
Proof.
  split; [ vm_compute; reflexivity | ].
  eexists. eexists. split; [ reflexivity | ].
  split; [ vm_compute; reflexivity | ].
  split; [ vm_compute; reflexivity | ].
  split; [ vm_compute; reflexivity | ].
  split; [ vm_compute; reflexivity | ].
  split; [ vm_compute; auto 20 | ].
  vm_compute. reflexivity.
Qed.
(* ================================================================== *)
(** ** Shutdown *)









(** [destroy] does not touch the timers: a tick scheduled before the call
    still fires after it. *)
Lemma destroy_keeps_timers : keeps timers destroy.
Proof. unfold destroy. frame. Qed.
(* ================================================================== *)
(** ** The loop over the channels *)

(** The run to the end agrees with the loop taken stretch by stretch. *)
Lemma for_entries_along_loop status settle entries :
  for_entries status settle entries
  = match loop status entries with
    | (calls, None) => (calls, None)
    | (calls, Some t) =>
        match settle (awaited t) with
        | None =>
            ((calls ++ fst (for_entries status settle (remaining t)))%list,
             snd (for_entries status settle (remaining t)))
        | Some e => (calls, Some e)
        end
    end.
Proof.
  induction entries as [ | c rest IH]; simpl; [ reflexivity | ].
  destruct (status c).
  - simpl. destruct (settle c); [ reflexivity | ].
    destruct (for_entries status settle rest). reflexivity.
  - rewrite IH. destruct (loop status rest) as [calls [t | ]]; [ | reflexivity ].
    destruct (settle (awaited t)); reflexivity.
Qed.

Lemma synchs_cons c x calls :
  synchs c (x :: calls)
  = (match x with
     | SynchBlocks c' => if String.eqb c' c then 1 else 0
     | _ => 0
     end + synchs c calls)%nat.
Proof.
  unfold synchs. simpl. destruct x; try reflexivity.
  destruct (String.eqb c0 c); reflexivity.
Qed.

Lemma reconnects_cons c x calls :
  reconnects c (x :: calls)
  = (match x with
     | ConnectChannelEventHub c' => if String.eqb c' c then 1 else 0
     | _ => 0
     end + reconnects c calls)%nat.
Proof.
  unfold reconnects. simpl. destruct x; try reflexivity.
  destruct (String.eqb c0 c); reflexivity.
Qed.

Lemma reported_cons c b x calls :
  reported c b (x :: calls) <-> x = IsChannelEventHubConnected c b \/ reported c b calls.
Proof. unfold reported. simpl. tauto. Qed.

(** Every call of the loop is about one of its entries. *)
Lemma for_entries_absent status settle entries c :
  ~ In c entries ->
  synchs c (fst (for_entries status settle entries)) = O
  /\ reconnects c (fst (for_entries status settle entries)) = O
  /\ forall b, ~ reported c b (fst (for_entries status settle entries)).
Proof.
  induction entries as [ | x rest IH]; simpl; intro H.
  - repeat split. intros b [].
  - assert (Hx : x <> c) by tauto. assert (Hr : ~ In c rest) by tauto.
    destruct (IH Hr) as (I1 & I2 & I3).
    apply String.eqb_neq in Hx.
    destruct (status x); [ destruct (settle x) | ];
      try destruct (for_entries status settle rest) as [calls how]; simpl in *;
      rewrite ?synchs_cons, ?reconnects_cons, ?Hx, ?I1, ?I2; repeat split;
      intros b; rewrite ?reported_cons; intros Q;
      repeat match goal with
             | Q : _ \/ _ |- _ => destruct Q as [Q | Q]
             end;
      try discriminate;
      try (injection Q as -> _; rewrite String.eqb_refl in Hx; discriminate);
      try (eapply I3; eassumption);
      try (destruct Q).
Qed.

(** What one run of the loop does about each channel it asks about: a
    channel reported disconnected gets one reconnect and no synchronization,
    a channel reported connected one synchronization and no reconnect; the
    reports are the answers of the event hub about entries of the client; and
    a run that ends without a rejection has asked about every entry. *)
Lemma for_entries_policy :
  forall (status : channel_name -> bool) (settle : channel_name -> option error)
         (entries : list channel_name),
    NoDup entries ->
    forall c,
      (reported c false (fst (for_entries status settle entries)) ->
       synchs c (fst (for_entries status settle entries)) = O
       /\ reconnects c (fst (for_entries status settle entries)) = 1%nat)
      /\ (reported c true (fst (for_entries status settle entries)) ->
          synchs c (fst (for_entries status settle entries)) = 1%nat
          /\ reconnects c (fst (for_entries status settle entries)) = O)
      /\ (forall b, reported c b (fst (for_entries status settle entries)) ->
                    In c entries /\ status c = b)
      /\ (snd (for_entries status settle entries) = None -> In c entries ->
          reported c (status c) (fst (for_entries status settle entries))).
Proof.
  intros status settle entries. unfold reported.
  induction 1 as [ | x rest Hx Hnd IH]; intro c.
  - simpl. intuition.
  - destruct (for_entries_absent status settle rest x Hx) as (A1 & A2 & A3).
    unfold reported in A3.
    destruct (IH c) as (I1 & I2 & I3 & I4). clear IH.
    destruct (String.eqb_spec x c) as [-> | Hne].
    + (* the entry at hand *)
      simpl. destruct (status c) eqn:S; [ destruct (settle c) eqn:T | ];
        try destruct (for_entries status settle rest) as [calls how]; simpl in *;
        rewrite ?synchs_cons, ?reconnects_cons, ?String.eqb_refl, ?A1, ?A2;
        (split; [ | split; [ | split ] ]).
      all: try (intros b).
      all: intros.
      all: repeat match goal with
               | Q : _ \/ _ |- _ => destruct Q as [Q | Q]
               | Q : False |- _ => destruct Q
               | Q : IsChannelEventHubConnected _ _ = IsChannelEventHubConnected _ _ |- _ =>
                   injection Q as <-
               | Q : In _ _ |- _ => apply A3 in Q; destruct Q
               end.
      all: try discriminate.
      all: auto.
    + (* another entry *)
      assert (E : String.eqb x c = false) by now apply String.eqb_neq.
      simpl. destruct (status x) eqn:S; [ destruct (settle x) eqn:T | ];
        try destruct (for_entries status settle rest) as [calls how]; simpl in *;
        rewrite ?synchs_cons, ?reconnects_cons, ?E; simpl;
        (split; [ | split; [ | split ] ]).
      all: try (intros b).
      all: intros.
      all: repeat match goal with
               | Q : _ \/ _ |- _ => destruct Q as [Q | Q]
               | Q : False |- _ => destruct Q
               | Q : IsChannelEventHubConnected _ _ = IsChannelEventHubConnected _ _ |- _ =>
                   injection Q as -> _; congruence
               end.
      all: try discriminate.
      all: try congruence.
      all: auto.
      all: try (destruct (I3 _ ltac:(eassumption)); auto).
Qed.

(** A stretch of entries whose synchronizations all fulfil is run through and
    the loop goes on with what follows. *)
Lemma for_entries_app status settle before rest :
  (forall x, In x before -> status x = true -> settle x = None) ->
  for_entries status settle (before ++ rest)
  = ((fst (for_entries status settle before) ++ fst (for_entries status settle rest))%list,
     snd (for_entries status settle rest)).
Proof.
  induction before as [ | x before IH]; simpl; intro H.
  - now destruct (for_entries status settle rest).
  - rewrite IH by auto.
    destruct (status x) eqn:S.
    + rewrite (H x) by auto.
      destruct (for_entries status settle before). reflexivity.
    + destruct (for_entries status settle before). reflexivity.
Qed.

Lemma synchs_app c l1 l2 : synchs c (l1 ++ l2) = (synchs c l1 + synchs c l2)%nat.
Proof. unfold synchs. now rewrite filter_app, length_app. Qed.

Lemma reconnects_app c l1 l2 :
  reconnects c (l1 ++ l2) = (reconnects c l1 + reconnects c l2)%nat.
Proof. unfold reconnects. now rewrite filter_app, length_app. Qed.

(** An entry the loop reaches is asked about. *)
Lemma for_entries_reaches status settle before c after :
  (forall x, In x before -> status x = true -> settle x = None) ->
  reported c (status c) (fst (for_entries status settle (before ++ c :: after))).
Proof.
  intro H. rewrite for_entries_app by exact H. unfold reported. simpl.
  apply in_or_app. right.
  destruct (status c); [ destruct (settle c) | ];
    try destruct (for_entries status settle after); simpl; auto.
Qed.

(** C2, as the code has it: the policy holds for the channels the loop
    reaches.  In a run of the loop over the channels of the client, take a
    channel [c] such that no synchronization before it rejects.  The event
    hub is asked about [c]; if it reports [c] disconnected, [synchBlocks] is
    not called for [c] and [connectChannelEventHub] is called for it exactly
    once; if it reports [c] connected, [synchBlocks] is called for [c], once,
    and [connectChannelEventHub] is not.  When no synchronization rejects
    this covers every channel. *)
Theorem C2_policy_on_the_channels_the_loop_reaches :
  forall (status : channel_name -> bool) (settle : channel_name -> option error)
         (before : list channel_name) (c : channel_name) (after : list channel_name),
    NoDup (before ++ c :: after) ->
    (forall x, In x before -> status x = true -> settle x = None) ->
    reported c (status c) (fst (for_entries status settle (before ++ c :: after)))
    /\ (status c = false ->
        synchs c (fst (for_entries status settle (before ++ c :: after))) = O
        /\ reconnects c (fst (for_entries status settle (before ++ c :: after))) = 1%nat)
    /\ (status c = true ->
        synchs c (fst (for_entries status settle (before ++ c :: after))) = 1%nat
        /\ reconnects c (fst (for_entries status settle (before ++ c :: after))) = O).
Proof.
  intros status settle before c after Hnd Hb.
  pose proof (for_entries_reaches status settle before c after Hb) as R.
  destruct (for_entries_policy status settle _ Hnd c) as (P1 & P2 & _).
  split; [ exact R | split ]; intro S; rewrite S in R; auto.
Qed.

Lemma C2_policy_on_the_channels_the_loop_reaches_witness :
  synchs "b" (fst (for_entries (String.eqb "a") (fun _ => None) (["a"] ++ "b" :: ["c"]))) = O
  /\ reconnects "b" (fst (for_entries (String.eqb "a") (fun _ => None)
                           (["a"] ++ "b" :: ["c"]))) = 1%nat.
Proof.
  destruct (C2_policy_on_the_channels_the_loop_reaches
              (String.eqb "a") (fun _ => None) ["a"] "b" ["c"]) as (_ & H & _).
  - repeat constructor; simpl; intuition discriminate.
  - intros x _ _. reflexivity.
  - apply H. reflexivity.
Defined.

(** C2, as stated, fails.  The client has the channels A and B; the event
    hub of A is connected and that of B is not.  [synchBlocks] for A rejects,
    the loop ends there, and B, disconnected, gets no
    [connectChannelEventHub] where the claim promises exactly one. *)
Lemma C2_disconnected_channel_without_reconnect :
  In "B" ["A"; "B"]
  /\ String.eqb "A" "B" = false
  /\ reconnects "B"
       (fst (for_entries (String.eqb "A") (fun _ => Some (Raised "synchBlocks")) ["A"; "B"]))
     = O
  /\ reconnects "B"
       (fst (for_entries (String.eqb "A") (fun _ => Some (Raised "synchBlocks")) ["A"; "B"]))
     <> 1%nat.
Proof. vm_compute. repeat split; auto; discriminate. Qed.

(* ------------------------------------------------------------------ *)
(** *** The loop inside the event loop *)

Lemma resume_tasks entries s hub :
  eventHub (this s) = Some hub ->
  tasks (resume entries s)
  = (tasks s ++ suspended (snd (loop (hub_isChannelEventHubConnected hub) entries)))%list.
Proof.
  intro H. unfold resume. rewrite H.
  destruct entries as [ | c rest]; [ simpl; now rewrite app_nil_r | ].
  destruct (loop (hub_isChannelEventHubConnected hub) (c :: rest)). reflexivity.
Qed.

Lemma resume_log entries s hub :
  eventHub (this s) = Some hub ->
  log (resume entries s)
  = (log s ++ fst (loop (hub_isChannelEventHubConnected hub) entries))%list.
Proof.
  intro H. unfold resume. rewrite H.
  destruct entries as [ | c rest]; [ simpl; now rewrite app_nil_r | ].
  destruct (loop (hub_isChannelEventHubConnected hub) (c :: rest)). reflexivity.
Qed.





(* ------------------------------------------------------------------ *)
(** *** The two readings of the loop agree *)

Lemma resume_skips c rest s hub :
  eventHub (this s) = Some hub ->
  hub_isChannelEventHubConnected hub c = false ->
  resume (c :: rest) s
  = resume rest (logged [IsChannelEventHubConnected c false; ConnectChannelEventHub c] s).
Proof.
  intros Hh Hc. unfold resume. simpl. rewrite Hh, Hc.
  destruct rest as [ | c' rest].
  - simpl. destruct s. unfold set_tasks, logged. simpl. now rewrite app_nil_r.
  - destruct (loop (hub_isChannelEventHubConnected hub) (c' :: rest)) as [calls stop].
    unfold set_tasks, logged. simpl. now rewrite <- app_assoc.
Qed.

(** Started in a process where no loop is suspended and left alone with its
    own settlements, the loop of the event loop makes the calls of
    [for_entries] and ends the way [for_entries] says. *)
Lemma resume_runs_for_entries settle hub entries : forall s,
  eventHub (this s) = Some hub -> tasks s = [] ->
  exists s',
    run (resume entries s)
        (settlements (hub_isChannelEventHubConnected hub) settle entries) = Some s'
    /\ log s'
       = (log s ++ fst (for_entries (hub_isChannelEventHubConnected hub) settle entries))%list
    /\ tasks s' = []
    /\ rejected s'
       = (rejected s
            ++ match snd (for_entries (hub_isChannelEventHubConnected hub) settle entries) with
               | Some e => [e]
               | None => []
               end)%list
    /\ this s' = this s /\ timers s' = timers s.
Proof.
  induction entries as [ | c rest IH]; intros s Hh Ht.
  - exists s. simpl. rewrite !app_nil_r. repeat split; auto.
  - cbn [settlements for_entries]. destruct (hub_isChannelEventHubConnected hub c) eqn:Hc.
    + unfold resume at 1. rewrite Hh. cbn [loop]. rewrite Hc, Ht.
      destruct (settle c) as [e | ] eqn:Hs.
      * eexists. split; [ reflexivity | ]. simpl. repeat split; auto.
      * cbn -[resume].
        destruct (IH (set_tasks []
                        (set_tasks [{| awaited := c; remaining := rest; ticked := false |}]
                           (logged [IsChannelEventHubConnected c true; SynchBlocks c] s))))
          as (s' & R & L & T & J & P & Q); [ exact Hh | reflexivity | ].
        exists s'. split; [ exact R | ].
        destruct (for_entries (hub_isChannelEventHubConnected hub) settle rest)
          as [calls how].
        simpl in *. rewrite L, <- app_assoc. repeat split; auto.
    + rewrite (resume_skips c rest s hub Hh Hc).
      destruct (IH (logged [IsChannelEventHubConnected c false; ConnectChannelEventHub c] s))
        as (s' & R & L & T & J & P & Q); [ exact Hh | exact Ht | ].
      exists s'. split; [ exact R | ].
      destruct (for_entries (hub_isChannelEventHubConnected hub) settle rest)
        as [calls how].
      simpl in *. rewrite L, <- app_assoc. repeat split; auto.
Qed.

(* ------------------------------------------------------------------ *)
(** *** The tick body *)

Lemma continue_tick_tasks entries s hub :
  eventHub (this s) = Some hub ->
  tasks (continue_tick entries s)
  = (tasks s
       ++ suspended (snd (tick_loop (busy (tasks s))
                            (hub_isChannelEventHubConnected hub) entries)))%list.
Proof.
  intro H. unfold continue_tick. rewrite H.
  destruct (tick_loop (busy (tasks s)) (hub_isChannelEventHubConnected hub) entries).
  reflexivity.
Qed.











(* ================================================================== *)
(** ** Failures and overlap *)

(** C3, as the code has it: nothing in [isChannelEventHubConnected] catches a
    rejected [synchBlocks].  When the synchronization of [a] rejects with
    [e], the run of the loop ends there and the method rejects with [e]: the
    entries before [a] have been dealt with, [a] has had its call, and every
    other channel, those after [a] among them, gets neither [synchBlocks] nor
    [connectChannelEventHub] from this run.  The rescheduling of the timer
    does not wait for any of this: [sync] asks for the next tick in the same
    turn in which it starts the tick body, so when a timer has fired the next
    one is set, one delay of the interval from now, and no awaited
    synchronization has settled in between. *)
Theorem C3_rejection_ends_the_run_of_the_loop :
  forall (status : channel_name -> bool) (settle : channel_name -> option error)
         (before : list channel_name) (a : channel_name) (after : list channel_name)
         (e : error),
    status a = true ->
    settle a = Some e ->
    (forall x, In x before -> status x = true -> settle x = None) ->
    for_entries status settle (before ++ a :: after)
    = ((fst (for_entries status settle before)
          ++ [IsChannelEventHubConnected a true; SynchBlocks a])%list, Some e)
    /\ (forall b, ~ In b before -> b <> a ->
          synchs b (fst (for_entries status settle (before ++ a :: after))) = O
          /\ reconnects b (fst (for_entries status settle (before ++ a :: after))) = O)
    /\ (forall s s',
          step s Fire = Some s' ->
          exists due started,
            earliest (timers s) = Some due
            /\ timers s'
               = (remove_first due (timers s)
                    ++ [clock s + Js.timeout_delay (blocksSyncTime (this s))])%list
            /\ tasks s' = (tasks s ++ started)%list
            /\ rejected s' = rejected s).
Proof.
  intros status settle before a after e Sa Ta Hb.
  assert (E : for_entries status settle (before ++ a :: after)
              = ((fst (for_entries status settle before)
                    ++ [IsChannelEventHubConnected a true; SynchBlocks a])%list, Some e)).
  { rewrite for_entries_app by exact Hb. simpl. rewrite Sa, Ta. reflexivity. }
  split; [ exact E | split ].
  - intros b Hnb Hne. rewrite E. simpl.
    destruct (for_entries_absent status settle before b Hnb) as (A1 & A2 & _).
    assert (Q : String.eqb a b = false) by (apply String.eqb_neq; congruence).
    rewrite synchs_app, reconnects_app, A1, A2, !synchs_cons, !reconnects_cons, Q.
    auto.
  - intros s s' H. apply step_Fire in H.
    destruct H as (due & hub & E1 & _ & Hh & ->). exists due. simpl.
    unfold eventHub_synchBlocks. simpl.
    destruct (client (this s)) as [cl | ].
    + rewrite (continue_tick_tasks _ _ hub) by exact Hh.
      rewrite continue_tick_rejected. simpl. eauto.
    + exists []. simpl. rewrite app_nil_r. auto.
Qed.

Lemma C3_rejection_ends_the_run_of_the_loop_witness :
  for_entries (fun _ => true)
    (fun c => if String.eqb c "A" then Some (Raised "synchBlocks") else None)
    ([] ++ "A" :: ["B"])
  = (([] ++ [IsChannelEventHubConnected "A" true; SynchBlocks "A"])%list,
     Some (Raised "synchBlocks")).
Proof.
  destruct (C3_rejection_ends_the_run_of_the_loop
              (fun _ => true)
              (fun c => if String.eqb c "A" then Some (Raised "synchBlocks") else None)
              [] "A" ["B"] (Raised "synchBlocks")) as (H & _).
  - reflexivity.
  - reflexivity.
  - intros x [].
  - exact H.
Defined.

(** C3, as stated, fails.  The client has the channels A and B, both
    connected, and [synchBlocks] for A rejects.  The method calls
    [synchBlocks] for A and rejects with its error; B, which comes after A,
    gets neither [synchBlocks] nor [connectChannelEventHub]. *)
Lemma C3_channel_after_a_failure_is_left_out :
  isChannelEventHubConnected
    (fun c => if String.eqb c "A" then Some (Raised "synchBlocks") else None)
    (this (running ["A"; "B"] ["A"; "B"]))
  = ([IsChannelEventHubConnected "A" true; SynchBlocks "A"], Some (Raised "synchBlocks"))
  /\ synchs "B"
       (fst (isChannelEventHubConnected
               (fun c => if String.eqb c "A" then Some (Raised "synchBlocks") else None)
               (this (running ["A"; "B"] ["A"; "B"])))) = O
  /\ reconnects "B"
       (fst (isChannelEventHubConnected
               (fun c => if String.eqb c "A" then Some (Raised "synchBlocks") else None)
               (this (running ["A"; "B"] ["A"; "B"])))) = O.
Proof. vm_compute. repeat split; reflexivity. Qed.




(* ================================================================== *)
(** ** Further properties of [initialize] *)

Lemma bring_up_call_order w nc s :
  exists configs configs' n,
    log (snd (bring_up w nc s))
    = (log s ++ firstn n (initialize_calls
                            (blocksSyncTime (this (snd (bring_up w nc s))))
                            configs configs'
                            (client_name (this (snd (bring_up w nc s))))))%list
    /\ (timers (snd (bring_up w nc s)) <> timers s -> n = 7%nat)
    /\ (eventHub (this (snd (bring_up w nc s))) <> eventHub (this s) -> (6 <= n)%nat).
Proof.
  unfold bring_up, start, open_streams, setTimeout_sync. run_monad. simpl.
  destruct (Js.get_by nc (network_name (this s))) as [configs | e | ];
    try (exists Js.Undefined, Js.Undefined, 2%nat; simpl; rewrite <- app_assoc;
         repeat split; congruence).
  destruct (setOrgEnrolmentPath w configs) as [configs' | e | ];
    try (exists configs, Js.Undefined, 3%nat; simpl; rewrite <- !app_assoc;
         repeat split; congruence).
  destruct (createFabricClient w configs' (client_name (this s))) as [[cl | ] | e | ];
    try (exists configs, configs', 4%nat; simpl; rewrite <- !app_assoc;
         repeat split; congruence).
  destruct (synchNetworkConfigToDB w cl) as [res | e | ];
    try (exists configs, configs', 5%nat; simpl; rewrite <- !app_assoc;
         repeat split; congruence).
  destruct (Js.truthy res); simpl;
    [ | exists configs, configs', 5%nat; simpl; rewrite <- !app_assoc;
         repeat split; congruence ].
  destruct (snd (eventHub_initialize w cl)) as [[] | e | ];
    exists configs, configs', 7%nat; simpl; rewrite <- !app_assoc;
    repeat split; try congruence; intros; lia.
Qed.

(** X1: the calls [initialize] makes are always an initial stretch of one
    fixed sequence: the two process-wide settings, [setOrgEnrolmentPath],
    [createFabricClient], [synchNetworkConfigToDB], the constructor of
    [FabricEvent] and its [initialize].  The first setting carries the
    interval the object ends up with, and [createFabricClient] is given the
    client name the object ends up with.  A timer is added only after all
    seven calls, and the event hub is replaced only after the first six. *)
Theorem X1_initialize_call_order :
  forall (w : World) (all_config : Js.value) (args : list string) (s : Process),
  exists configs configs' n,
    log (snd (initialize w all_config args s))
    = (log s ++ firstn n (initialize_calls
                            (blocksSyncTime (this (snd (initialize w all_config args s))))
                            configs configs'
                            (client_name (this (snd (initialize w all_config args s))))))%list
    /\ (n = 7%nat \/ timers (snd (initialize w all_config args s)) = timers s)
    /\ ((6 <= n)%nat
        \/ eventHub (this (snd (initialize w all_config args s))) = eventHub (this s)).
Proof.
  intros w cfg args s.
  destruct (initialize_enters_bring_up w cfg args s)
    as [(c & _ & _ & L & T & H) | (nc & s2 & E & L & T & _ & _ & H & _)].
  - exists Js.Undefined, Js.Undefined, O. simpl. rewrite app_nil_r. auto.
  - rewrite E.
    destruct (bring_up_call_order w nc s2) as (configs & configs' & n & Q & Qt & Qh).
    exists configs, configs', n. rewrite Q, L, <- T, <- H. repeat split.
    + destruct (Nat.eq_dec n 7); [ now left | right ].
      destruct (list_eq_dec Z.eq_dec (timers (snd (bring_up w nc s2))) (timers s2));
        [ assumption | ].
      exfalso. auto.
    + destruct (le_dec 6 n); [ now left | right ].
      destruct (eventHub (this (snd (bring_up w nc s2)))) as [[l1] | ] eqn:E1;
        destruct (eventHub (this s2)) as [[l2] | ] eqn:E2; try reflexivity;
        try (exfalso; apply n0, Qh; congruence).
      destruct (list_eq_dec string_dec l1 l2); [ congruence | ].
      exfalso. apply n0, Qh. congruence.
Qed.

Lemma bring_up_timers w nc s :
  timers (snd (bring_up w nc s)) = timers s
  \/ (timers (snd (bring_up w nc s))
      = (timers s ++ [clock s + Js.timeout_delay (blocksSyncTime (this s))])%list
      /\ fst (bring_up w nc s) = Normal tt
      /\ eventHub (this (snd (bring_up w nc s))) <> None).
Proof.
  unfold bring_up, start, open_streams, setTimeout_sync, assign_eventHub.
  run_monad. simpl.
  split_answers; simpl; auto; right; repeat split; discriminate.
Qed.

(** X2: [initialize] never cancels a timer and adds at most one.  Whatever
    the outcome, the timers afterwards are the timers before, or the timers
    before followed by one more, due one [setTimeout] delay of the interval
    from now; the second only on a normal return with an event hub in
    place.  So a second successful [initialize] on the same object leaves two
    timers running. *)
Theorem X2_initialize_adds_at_most_one_timer :
  forall (w : World) (all_config : Js.value) (args : list string) (s : Process),
    timers (snd (initialize w all_config args s)) = timers s
    \/ (timers (snd (initialize w all_config args s))
        = (timers s ++ [clock s + Js.timeout_delay
                          (blocksSyncTime (this (snd (initialize w all_config args s))))])%list
        /\ fst (initialize w all_config args s) = Normal tt
        /\ eventHub (this (snd (initialize w all_config args s))) <> None).
Proof.
  intros w cfg args s.
  destruct (initialize_enters_bring_up w cfg args s)
    as [(c & _ & _ & _ & T & _) | (nc & s2 & E & _ & T & _ & C & _ & _)].
  - now left.
  - rewrite E.
    pose proof (bring_up_keeps_interval w nc s2) as I. cbv beta in I.
    destruct (bring_up_timers w nc s2) as [Q | (Q & N & H)].
    + left. congruence.
    + right. rewrite Q, T, C, I. auto.
Qed.

(* ------------------------------------------------------------------ *)
(** *** Errors of the collaborators *)

(** Splits a membership in an explicit list of calls into its cases. *)
Ltac in_cases H :=
  simpl in H; decompose [or] H; clear H; try contradiction; try discriminate.

(** X3: [initialize] swallows nothing and wraps nothing.  In a run of
    [initialize] on a new object, when [setOrgEnrolmentPath],
    [createFabricClient] or [synchNetworkConfigToDB] is called and throws
    [e], [initialize] throws that same [e]; the failing call is the last one
    made, and neither an event hub nor a timer comes out of the run. *)
Theorem X3_initialize_passes_errors_on :
  forall (w : World) (all_config : Js.value) (args : list string) (now : Z)
         (e : error),
    (forall configs,
        In (SetOrgEnrolmentPath configs)
           (log (snd (initialize w all_config args (boot now)))) ->
        setOrgEnrolmentPath w configs = Throw e ->
        fst (initialize w all_config args (boot now)) = Throw e
        /\ last (log (snd (initialize w all_config args (boot now)))) DisconnectEventHubs
           = SetOrgEnrolmentPath configs
        /\ eventHub (this (snd (initialize w all_config args (boot now)))) = None
        /\ timers (snd (initialize w all_config args (boot now))) = [])
    /\ (forall configs name,
          In (CreateFabricClient configs name)
             (log (snd (initialize w all_config args (boot now)))) ->
          createFabricClient w configs name = Throw e ->
          fst (initialize w all_config args (boot now)) = Throw e
          /\ last (log (snd (initialize w all_config args (boot now)))) DisconnectEventHubs
             = CreateFabricClient configs name
          /\ eventHub (this (snd (initialize w all_config args (boot now)))) = None
          /\ timers (snd (initialize w all_config args (boot now))) = [])
    /\ (forall cl,
          In SynchNetworkConfigToDB
             (log (snd (initialize w all_config args (boot now)))) ->
          client (this (snd (initialize w all_config args (boot now)))) = Some cl ->
          synchNetworkConfigToDB w cl = Throw e ->
          fst (initialize w all_config args (boot now)) = Throw e
          /\ last (log (snd (initialize w all_config args (boot now)))) DisconnectEventHubs
             = SynchNetworkConfigToDB
          /\ eventHub (this (snd (initialize w all_config args (boot now)))) = None
          /\ timers (snd (initialize w all_config args (boot now))) = []).
Proof.
  intros w cfg args now e.
  destruct (initialize_enters_bring_up w cfg args (boot now))
    as [(c & _ & _ & L & _) | (nc & s2 & E & L & T & _ & _ & H & _)].
  { rewrite L. repeat split; intros; contradiction. }
  rewrite E. clear E. simpl in L, T, H.
  unfold bring_up, start, open_streams, setTimeout_sync, assign_eventHub.
  run_monad. simpl.
  destruct (Js.get_by nc (network_name (this s2))) as [c0 | e0 | ];
    [ | simpl; rewrite L; repeat split; intros; in_cases H0 .. ].
  destruct (setOrgEnrolmentPath w c0) as [c1 | e0 | ] eqn:P;
    [ destruct (createFabricClient w c1 (client_name (this s2)))
        as [[cl0 | ] | e1 | ] eqn:C;
      [ destruct (synchNetworkConfigToDB w cl0) as [res | e2 | ] eqn:R;
        [ destruct (Js.truthy res);
          [ destruct (snd (eventHub_initialize w cl0)) as [[] | e3 | ] | ] | | ]
      | | | ]
    | | ];
    simpl; rewrite ?L, ?T, ?H; (split; [ | split ]);
    intros; in_cases H0;
    repeat match goal with
           | Q : SetOrgEnrolmentPath _ = SetOrgEnrolmentPath _ |- _ => injection Q as <-
           | Q : CreateFabricClient _ _ = CreateFabricClient _ _ |- _ => injection Q as <- <-
           | Q : Some _ = Some _ |- _ => injection Q as <-
           end;
    try congruence;
    repeat split; congruence.
Qed.

Lemma X3_initialize_passes_errors_on_witness :
  fst (initialize failing_enrolment config_net1 [] (boot 0)) = Throw (Raised "enrolment")
  /\ timers (snd (initialize failing_enrolment config_net1 [] (boot 0))) = [].
Proof.
  destruct (X3_initialize_passes_errors_on failing_enrolment config_net1 [] 0
              (Raised "enrolment")) as (H & _).
  destruct (H (Js.Obj [("name", Js.Str "clientA");
                       ("clients", Js.Obj [("clientA", Js.Obj [])])]))
    as (H1 & _ & _ & H2).
  - vm_compute. tauto.
  - reflexivity.
  - split; assumption.
Defined.

(* ------------------------------------------------------------------ *)
(** *** Runs of [initialize] that stop half way *)

(** X4: no client, no service.  In a run of [initialize] on a new object
    where [createFabricClient] is called and answers no client, the method
    throws the [ExplorerError] with message [ERROR_2011]; [this.client] is
    null, no registration has been attempted, no event hub exists and no
    timer is pending. *)
Theorem X4_no_client_stops_initialize :
  forall (w : World) (all_config : Js.value) (args : list string) (now : Z)
         (configs name : Js.value),
    In (CreateFabricClient configs name)
       (log (snd (initialize w all_config args (boot now)))) ->
    createFabricClient w configs name = Normal None ->
    fst (initialize w all_config args (boot now)) = Throw (ExplorerError "ERROR_2011")
    /\ client (this (snd (initialize w all_config args (boot now)))) = None
    /\ eventHub (this (snd (initialize w all_config args (boot now)))) = None
    /\ timers (snd (initialize w all_config args (boot now))) = []
    /\ ~ In SynchNetworkConfigToDB (log (snd (initialize w all_config args (boot now))))
    /\ name = client_name (this (snd (initialize w all_config args (boot now)))).
Proof.
  intros w cfg args now configs name.
  destruct (initialize_enters_bring_up w cfg args (boot now))
    as [(c & _ & _ & L & _) | (nc & s2 & E & L & T & _ & _ & H & _)].
  - rewrite L. intros [].
  - rewrite E. clear E. simpl in L, T, H.
    unfold bring_up, start, open_streams, setTimeout_sync. run_monad. simpl.
    destruct (Js.get_by nc (network_name (this s2))) as [c0 | e | ];
      [ | simpl; rewrite L; intros Q; in_cases Q .. ].
    destruct (setOrgEnrolmentPath w c0) as [c1 | e | ];
      [ | simpl; rewrite L; intros Q; in_cases Q .. ].
    destruct (createFabricClient w c1 (client_name (this s2))) as [[cl | ] | e | ] eqn:C;
      [ destruct (synchNetworkConfigToDB w cl) as [res | e | ];
        [ destruct (Js.truthy res);
          [ destruct (snd (eventHub_initialize w cl)) as [[] | e | ] | ] | | ]
      | | | ];
      simpl; rewrite ?L, ?T, ?H; intros Q; in_cases Q;
      match goal with
      | Q : CreateFabricClient _ _ = CreateFabricClient _ _ |- _ => injection Q as <- <-
      end;
      intros N; try congruence.
    repeat split; auto. intro Q. in_cases Q.
Qed.

Lemma X4_no_client_stops_initialize_witness :
  fst (initialize no_client config_net1 [] (boot 0)) = Throw (ExplorerError "ERROR_2011")
  /\ timers (snd (initialize no_client config_net1 [] (boot 0))) = [].
Proof.
  destruct (X4_no_client_stops_initialize no_client config_net1 [] 0
              (Js.Obj [("name", Js.Str "clientA");
                       ("clients", Js.Obj [("clientA", Js.Obj [])])])
              (Js.Str "clientA")) as (H1 & _ & _ & H2 & _).
  - vm_compute. tauto.
  - reflexivity.
  - split; assumption.
Defined.

(** X5: a failed start of the event hub.  In a run of [initialize] on a new
    object where [FabricEvent.initialize] is called and rejects with [e],
    [initialize] rejects with [e] and no timer has been scheduled, so no tick
    will ever run; but [this.eventHub] holds the hub, with whatever streams it
    had opened, and a later [destroy] does reach [disconnectEventHubs]. *)
Theorem X5_failed_event_hub_leaves_no_timer :
  forall (w : World) (all_config : Js.value) (args : list string) (now : Z)
         (cl : Client) (e : error),
    In EventHubInitialize (log (snd (initialize w all_config args (boot now)))) ->
    client (this (snd (initialize w all_config args (boot now)))) = Some cl ->
    snd (eventHub_initialize w cl) = Throw e ->
    fst (initialize w all_config args (boot now)) = Throw e
    /\ eventHub (this (snd (initialize w all_config args (boot now))))
       = Some {| streams := fst (eventHub_initialize w cl) |}
    /\ timers (snd (initialize w all_config args (boot now))) = []
    /\ In DisconnectEventHubs
          (log (snd (destroy (snd (initialize w all_config args (boot now)))))).
Proof.
  intros w cfg args now cl e.
  destruct (initialize_enters_bring_up w cfg args (boot now))
    as [(c & _ & _ & L & _) | (nc & s2 & E & L & T & _ & _ & H & _)].
  - rewrite L. intros [].
  - rewrite E. clear E. simpl in L, T, H.
    unfold destroy, bring_up, start, open_streams, setTimeout_sync. run_monad. simpl.
    destruct (Js.get_by nc (network_name (this s2))) as [c0 | e0 | ];
      [ | simpl; rewrite L; intros Q; in_cases Q .. ].
    destruct (setOrgEnrolmentPath w c0) as [c1 | e0 | ];
      [ | simpl; rewrite L; intros Q; in_cases Q .. ].
    destruct (createFabricClient w c1 (client_name (this s2))) as [[cl0 | ] | e0 | ];
      [ | simpl; rewrite L; intros Q; in_cases Q .. ].
    destruct (synchNetworkConfigToDB w cl0) as [res | e0 | ];
      [ | simpl; rewrite L; intros Q; in_cases Q .. ].
    destruct (Js.truthy res);
      [ | simpl; rewrite L; intros Q; in_cases Q ].
    destruct (snd (eventHub_initialize w cl0)) as [[] | e0 | ] eqn:I;
      simpl; rewrite ?L, ?T; intros _ Q; injection Q as <-; intro N;
      rewrite I in N; try discriminate.
    injection N as <-. repeat split; auto.
    rewrite !in_app_iff. simpl. tauto.
Qed.

Lemma X5_failed_event_hub_leaves_no_timer_witness :
  fst (initialize (failing_hub ["a"; "b"] ["a"]) config_net1 [] (boot 0))
  = Throw (Raised "event hub")
  /\ eventHub (this (snd (initialize (failing_hub ["a"; "b"] ["a"]) config_net1 [] (boot 0))))
     = Some {| streams := ["a"] |}
  /\ timers (snd (initialize (failing_hub ["a"; "b"] ["a"]) config_net1 [] (boot 0))) = [].
Proof.
  destruct (X5_failed_event_hub_leaves_no_timer
              (failing_hub ["a"; "b"] ["a"]) config_net1 [] 0
              {| getChannels := ["a"; "b"] |} (Raised "event hub"))
    as (H1 & H2 & H3 & _).
  - vm_compute. tauto.
  - reflexivity.
  - reflexivity.
  - repeat split; assumption.
Defined.

(* ------------------------------------------------------------------ *)
(** *** Configurations with holes *)

(** X6: a configuration whose [network-configs] entry is missing or null.
    Whatever the arguments, [initialize] ends in a [TypeError] and no
    collaborator of [FabricUtils], [SyncService] or [FabricEvent] is called:
    with fewer than two arguments nothing at all has been called, with two or
    more at most the two process-wide settings have been made.  No timer and
    no event hub come out of it. *)
Theorem X6_missing_network_configs :
  forall (w : World) (all_config nc : Js.value) (args : list string) (s : Process),
    Js.get all_config (NETWORK_CONFIGS w) = Normal nc ->
    nc = Js.Undefined \/ nc = Js.Null ->
    fst (initialize w all_config args s) = Throw TypeError
    /\ (log (snd (initialize w all_config args s)) = log s
        \/ ((2 <= List.length args)%nat
            /\ log (snd (initialize w all_config args s))
               = (log s ++ [HfcConfigSet "discovery-cache-life"
                              (Js.Num (blocksSyncTime (this s)));
                            HfcConfigSet "initialize-with-discovery" (Js.Bool true)])%list))
    /\ timers (snd (initialize w all_config args s)) = timers s
    /\ eventHub (this (snd (initialize w all_config args s))) = eventHub (this s)
    /\ client (this (snd (initialize w all_config args s))) = client (this s).
Proof.
  intros w cfg nc args s G Hnc.
  assert (O : exists fields, cfg = Js.Obj fields).
  { destruct cfg; simpl in G; try discriminate. eauto. }
  destruct O as [fields ->].
  assert (B : forall s1, setBlocksSyncTime (Js.Obj fields) s1 = (Normal tt, s1)
                         \/ setBlocksSyncTime (Js.Obj fields) s1 = (Throw TypeError, s1)).
  { intro s1. unfold setBlocksSyncTime. run_monad. simpl.
    destruct (parseInt_Obj fields) as [P | P]; rewrite P; auto. }
  unfold initialize. run_monad. rewrite G.
  destruct args as [ | a0 [ | a1 more]].
  - unfold select. run_monad. destruct Hnc as [-> | ->]; simpl; auto 10.
  - unfold select. run_monad. destruct Hnc as [-> | ->]; simpl; auto 10.
  - rewrite select_two_args.
    destruct (B (with_this (set_client_name (Js.Str a1))
                   (with_this (set_network_name (Js.Str a0)) s))) as [-> | ->].
    + unfold bring_up. run_monad. simpl.
      destruct Hnc as [-> | ->]; simpl; rewrite <- app_assoc; simpl;
        repeat split; auto; right; split; auto; lia.
    + simpl. auto 10.
Qed.

Lemma X6_missing_network_configs_witness :
  fst (initialize (friendly ["a"] ["a"]) (Js.Obj [("sync", Js.Num 5)]) ["net1"; "clientA"]
         (boot 0)) = Throw TypeError.
Proof.
  destruct (X6_missing_network_configs (friendly ["a"] ["a"])
              (Js.Obj [("sync", Js.Num 5)]) Js.Undefined ["net1"; "clientA"] (boot 0))
    as (H & _).
  - reflexivity.
  - left. reflexivity.
  - exact H.
Defined.

(** X7: selections at the edge of the configuration, with the networks of the
    configuration at hand.
    - No argument and no network at all: a [TypeError]; only [network_name]
      has been written, with [undefined].
    - No argument and a first network whose entry has no [name]: no error;
      the client name is [undefined].
    - One argument, a network that is there but whose entry has no [clients]:
      a [TypeError].
    - One argument, a network whose [clients] is an empty object: no error;
      the client name is [undefined].
    - Arguments beyond the second are not looked at. *)
Theorem X7_selection_edge_cases :
  forall (w : World) (all_config : Js.value) (networks : list (string * Js.value))
         (s : Process),
    Js.get all_config (NETWORK_CONFIGS w) = Normal (Js.Obj networks) ->
    (networks = [] ->
     initialize w all_config [] s
     = (Throw TypeError, with_this (set_network_name Js.Undefined) s))
    /\ (forall net entry others,
          networks = (net, Js.Obj entry) :: others ->
          Js.own entry "name" = None ->
          names (snd (initialize w all_config [] s)) = (Js.Str net, Js.Undefined))
    /\ (forall net entry,
          Js.own networks net = Some (Js.Obj entry) ->
          Js.own entry "clients" = None ->
          initialize w all_config [net] s
          = (Throw TypeError, with_this (set_network_name (Js.Str net)) s))
    /\ (forall net entry,
          Js.own networks net = Some (Js.Obj entry) ->
          Js.own entry "clients" = Some (Js.Obj []) ->
          names (snd (initialize w all_config [net] s)) = (Js.Str net, Js.Undefined))
    /\ (forall a0 a1 more,
          initialize w all_config (a0 :: a1 :: more) s
          = initialize w all_config [a0; a1] s).
Proof.
  intros w cfg networks s G. repeat split.
  - intros ->. unfold initialize. run_monad. rewrite G. reflexivity.
  - intros net entry others -> N.
    erewrite initialize_names; [ | exact G | apply select_no_args ].
    + reflexivity.
    + simpl. now rewrite N.
  - intros net entry Hnet Hc. unfold initialize. run_monad. rewrite G.
    unfold select. run_monad. simpl. unfold Js.get_by. simpl.
    rewrite Hnet. simpl. rewrite Hc. reflexivity.
  - intros net entry Hnet Hc.
    assert (S : select (Js.Obj networks) [net] s
                = (Normal tt, with_this (set_client_name Js.Undefined)
                                (with_this (set_network_name (Js.Str net)) s))).
    { unfold select. run_monad. simpl. unfold Js.get_by. simpl.
      rewrite Hnet. simpl. rewrite Hc. reflexivity. }
    rewrite (initialize_names w cfg [net] _ s _ G S). reflexivity.
Qed.

Lemma X7_selection_edge_cases_witness :
  initialize (friendly [] []) (Js.Obj [("network-configs", Js.Obj [])]) [] (boot 0)
  = (Throw TypeError, with_this (set_network_name Js.Undefined) (boot 0)).
Proof.
  destruct (X7_selection_edge_cases (friendly [] [])
              (Js.Obj [("network-configs", Js.Obj [])]) [] (boot 0) eq_refl)
    as (H & _).
  apply H. reflexivity.
Defined.

(* ================================================================== *)
(** ** Further properties of the timer *)

Lemma earliest_In l d : earliest l = Some d -> In d l.
Proof.
  revert d. induction l as [ | x rest IH]; simpl; intros d; [ discriminate | ].
  destruct (earliest rest) as [m | ].
  - destruct (x <=? m); intro H; injection H as <-; auto.
  - intro H; injection H as <-; auto.
Qed.

Lemma earliest_least l d : earliest l = Some d -> forall x, In x l -> d <= x.
Proof.
  revert d. induction l as [ | y rest IH]; simpl; intros d; [ discriminate | ].
  destruct (earliest rest) as [m | ] eqn:E.
  - destruct (y <=? m) eqn:C; intro H; injection H as <-; intros x [<- | Hx].
    + lia.
    + apply Z.leb_le in C. specialize (IH m eq_refl x Hx). lia.
    + apply Z.leb_gt in C. lia.
    + now apply IH.
  - intro H; injection H as <-. intros x [<- | Hx]; [ lia | ].
    destruct rest; [ destruct Hx | ]. simpl in E.
    destruct (earliest rest); discriminate.
Qed.

(** X8: changing the interval while the timer runs.  [setBlocksSyncTime]
    writes the interval and nothing else: the pending timers keep their due
    times, nothing is called, no loop is touched.  The new interval is read
    when [sync] next runs: that tick still fires when it was due, earliest
    timer first, and the timer it sets is one delay of the new interval
    after it. *)
Theorem X8_new_interval_counts_from_the_next_tick :
  forall (v : Js.value) (s s1 s' : Process) (hub : FabricEvent),
    setBlocksSyncTime v s = (Normal tt, s1) ->
    eventHub (this s) = Some hub ->
    step s1 Fire = Some s' ->
    timers s1 = timers s /\ tasks s1 = tasks s /\ log s1 = log s /\ clock s1 = clock s
    /\ blocksSyncTime (this s') = interval_after v s
    /\ exists due,
        In due (timers s) /\ due <= clock s
        /\ (forall x, In x (timers s) -> due <= x)
        /\ timers s'
           = (remove_first due (timers s)
                ++ [clock s + Js.timeout_delay (interval_after v s)])%list.
Proof.
  intros v s s1 s' hub Hset Hh.
  pose proof (setBlocksSyncTime_keeps_timers v s) as T.
  pose proof (setBlocksSyncTime_keeps_tasks v s) as K.
  pose proof (setBlocksSyncTime_keeps_log v s) as L.
  pose proof (setBlocksSyncTime_keeps_clock v s) as C.
  pose proof (setBlocksSyncTime_keeps_eventHub v s) as E.
  assert (I : blocksSyncTime (this s1) = interval_after v s)
    by (unfold interval_after; now rewrite Hset).
  rewrite Hset in T, K, L, C, E. simpl in T, K, L, C, E.
  intro H. apply step_Fire in H. destruct H as (due & hub' & D & Q & _ & ->).
  rewrite T in D. rewrite C in Q.
  repeat split; auto.
  - simpl. rewrite eventHub_synchBlocks_this. exact I.
  - exists due. repeat split; auto.
    + now apply earliest_In.
    + now apply earliest_least.
    + simpl. now rewrite I, C, T.
Qed.

Lemma X8_new_interval_counts_from_the_next_tick_witness :
  exists s',
    step (snd (setBlocksSyncTime (Js.Str "5") (set_clock 60000 (running ["a"] ["a"]))))
         Fire = Some s'
    /\ blocksSyncTime (this s')
       = interval_after (Js.Str "5") (set_clock 60000 (running ["a"] ["a"])).
Proof.
  eexists. split; [ vm_compute; reflexivity | ].
  refine (proj1 (proj2 (proj2 (proj2 (proj2
            (X8_new_interval_counts_from_the_next_tick
               (Js.Str "5") (set_clock 60000 (running ["a"] ["a"]))
               (snd (setBlocksSyncTime (Js.Str "5") (set_clock 60000 (running ["a"] ["a"]))))
               _ {| streams := ["a"] |} _ _ _)))))).
  - vm_compute. reflexivity.
  - vm_compute. reflexivity.
  - vm_compute. reflexivity.
Defined.

(* ------------------------------------------------------------------ *)
(** *** The timer never stops *)

(** What an event leaves of the object: everything but the streams of the
    event hub, which stays in place once it is there. *)
Lemma step_object s e s' :
  step s e = Some s' ->
  blocksSyncTime (this s') = blocksSyncTime (this s)
  /\ client (this s') = client (this s)
  /\ names s' = names s
  /\ (eventHub (this s) <> None -> eventHub (this s') <> None).
Proof.
  destruct e as [ms | | i how | c | c | ]; simpl.
  - destruct (0 <=? ms); [ | discriminate ]. intro H. injection H as <-. auto.
  - intro H. apply (step_Fire s s') in H. destruct H as (due & hub & _ & _ & _ & ->).
    unfold names. simpl. rewrite eventHub_synchBlocks_this. auto.
  - intro H. apply (step_Settle s i how s') in H. destruct H as (t & _ & ->).
    unfold names. destruct (ticked t); [ rewrite continue_tick_this; auto | ].
    destruct how; [ simpl; auto | ]. rewrite resume_this. auto.
  - destruct (eventHub (this s)) as [hub | ] eqn:E; [ | discriminate ].
    destruct (hub_isChannelEventHubConnected hub c);
      intro H; injection H as <-; simpl; repeat split; auto; intros; congruence.
  - destruct (eventHub (this s)) as [hub | ] eqn:E; [ | discriminate ].
    intro H; injection H as <-; simpl; repeat split; auto; intros; congruence.
  - intro H. injection H as <-. unfold destroy, names. run_monad.
    destruct (eventHub (this s)); simpl; repeat split; auto; intros; congruence.
Qed.

Lemma remove_first_single d : remove_first d [d] = [].
Proof. simpl. now rewrite Z.eqb_refl. Qed.

(** One step of a running controller: the timer is still there; a firing
    replaces it by one that is due a full delay after the firing. *)
Lemma step_ticking interval due s e s' :
  ticking interval due s -> step s e = Some s' ->
  (e <> Fire /\ ticking interval due s')
  \/ (e = Fire /\ due <= clock s /\ clock s' = clock s
      /\ ticking interval (clock s + Js.timeout_delay interval) s').
Proof.
  intros (Hh & Hi & Ht) H.
  destruct (step_object s e s' H) as (I & _ & _ & Hh').
  specialize (Hh' Hh). unfold ticking. rewrite I, Hi.
  destruct e as [ms | | i how | c | c | ]; [ simpl in H | | | simpl in H .. ].
  - left. destruct (0 <=? ms); [ | discriminate ]. injection H as <-.
    repeat split; auto; discriminate.
  - right. apply step_Fire in H. destruct H as (d & hub & D & Q & _ & ->).
    rewrite Ht in D. simpl in D. injection D as <-.
    simpl. rewrite eventHub_synchBlocks_clock. simpl. repeat split; auto.
    rewrite Ht, remove_first_single, Hi. reflexivity.
  - left. apply step_Settle in H. destruct H as (t & _ & ->).
    repeat split; auto; try discriminate.
    destruct (ticked t); [ now rewrite continue_tick_timers | ].
    destruct how; [ simpl; auto | ]. now rewrite resume_timers.
  - left. destruct (eventHub (this s)) as [hub | ]; [ | discriminate ].
    destruct (hub_isChannelEventHubConnected hub c);
      injection H as <-; repeat split; auto; discriminate.
  - left. destruct (eventHub (this s)) as [hub | ]; [ | discriminate ].
    injection H as <-; repeat split; auto; discriminate.
  - left. injection H as <-. repeat split; auto; try discriminate.
    etransitivity; [ apply (destroy_keeps_timers s) | exact Ht ].
Qed.

(** With a delay of at least one millisecond per tick, the pending timer is
    due no earlier than one interval per firing after the first due time,
    and a process that has seen [k >= 1] firings is [k - 1] intervals past
    that time. *)
Lemma run_ticking interval events : forall due s s',
  1 <= interval <= 2147483647 ->
  ticking interval due s -> run s events = Some s' ->
  exists due',
    ticking interval due' s'
    /\ due + interval * Z.of_nat (fires events) <= due'
    /\ (fires events <> O -> due + interval * (Z.of_nat (fires events) - 1) <= clock s').
Proof.
  induction events as [ | e rest IH]; intros due s s' R T H.
  - simpl in H. injection H as <-. exists due. simpl. split; [ exact T | ].
    split; [ lia | intro N; exfalso; apply N; reflexivity ].
  - simpl in H. destruct (step s e) as [s1 | ] eqn:E; [ | discriminate ].
    assert (D : Js.timeout_delay interval = interval).
    { unfold Js.timeout_delay. destruct R as [R1 R2].
      apply Z.leb_le in R1, R2. now rewrite R1, R2. }
    destruct (step_ticking interval due s e s1 T E) as [[Ne T1] | (-> & Q & C & T1)].
    + destruct (IH due s1 s' R T1 H) as (due' & T' & B1 & B2).
      exists due'. assert (F : fires (e :: rest) = fires rest) by (destruct e; simpl; congruence).
      rewrite F. auto.
    + rewrite D in T1.
      destruct (IH (clock s + interval) s1 s' R T1 H) as (due' & T' & B1 & B2).
      exists due'. pose proof (run_clock _ _ _ H) as M.
      change (fires (Fire :: rest)) with (S (fires rest)).
      rewrite Nat2Z.inj_succ. split; [ exact T' | ].
      rewrite Z.mul_succ_r. split; [ lia | ].
      intros _. destruct (fires rest) eqn:K.
      * change (Z.of_nat 0) with 0. replace (Z.succ 0 - 1) with 0 by lia. lia.
      * specialize (B2 ltac:(discriminate)).
        replace (Z.succ (Z.of_nat (S n)) - 1) with (1 + (Z.of_nat (S n) - 1)) by lia.
        rewrite Z.mul_add_distr_l. lia.
Qed.

Lemma initialize_starts_ticking w cfg args now s :
  initialize w cfg args (boot now) = (Normal tt, s) ->
  eventHub (this s) <> None ->
  ticking 60000 (now + 60000) s /\ clock s = now.
Proof.
  intros Hinit Hhub.
  destruct (first_tick_after_initialize w cfg args (boot now) s)
    as (B & C & T & _); try assumption; try reflexivity.
  { split; reflexivity. }
  simpl in *. change (Js.timeout_delay 60000) with 60000 in T.
  repeat split; assumption.
Qed.

(** X9: nothing in the class stops the timer.  Once [initialize] on a new
    object has gone through [start], in every state the process reaches
    while no synchronization fails, [destroy] included, exactly one [sync]
    timer is pending and the event hub is in place; the interval is still
    60000 and the client and the selected names are the ones [initialize]
    left.  Stated for runs without a failed synchronization: what becomes of
    the process after one is up to the tick body, which is not part of the
    class, and to the runtime. *)
Theorem X9_the_timer_never_stops :
  forall (w : World) (all_config : Js.value) (args : list string) (now : Z)
         (s : Process) (events : list event) (s' : Process),
    initialize w all_config args (boot now) = (Normal tt, s) ->
    eventHub (this s) <> None ->
    no_failure events = true ->
    run s events = Some s' ->
    (exists due, timers s' = [due])
    /\ eventHub (this s') <> None
    /\ blocksSyncTime (this s') = 60000
    /\ client (this s') = client (this s)
    /\ names s' = names s.
Proof.
  intros w cfg args now s events s' Hinit Hhub _ Hrun.
  destruct (initialize_starts_ticking w cfg args now s Hinit Hhub) as [T _].
  destruct (run_ticking 60000 events _ s s' ltac:(lia) T Hrun) as (due' & (H1 & H2 & H3) & _).
  repeat split; eauto.
  - clear - Hrun. revert s s' Hrun.
    induction events as [ | e rest IH]; simpl; intros s s' H.
    + now injection H as <-.
    + destruct (step s e) as [s1 | ] eqn:E; [ | discriminate ].
      destruct (step_object s e s1 E) as (_ & C & _). rewrite <- C. now apply IH.
  - clear - Hrun. revert s s' Hrun.
    induction events as [ | e rest IH]; simpl; intros s s' H.
    + now injection H as <-.
    + destruct (step s e) as [s1 | ] eqn:E; [ | discriminate ].
      destruct (step_object s e s1 E) as (_ & _ & C & _). rewrite <- C. now apply IH.
Qed.

Lemma X9_the_timer_never_stops_witness :
  exists due,
    timers (set_clock 5 (snd (destroy (running ["a"] ["a"])))) = [due].
Proof.
  destruct (X9_the_timer_never_stops (friendly ["a"] ["a"]) config_net1 [] 0
              (running ["a"] ["a"]) [Destroy; Elapse 5]
              (set_clock 5 (snd (destroy (running ["a"] ["a"])))))
    as (H & _).
  - reflexivity.
  - vm_compute. discriminate.
  - reflexivity.
  - vm_compute. reflexivity.
  - exact H.
Defined.

(** X10: ticks are a full interval apart.  After [initialize] on a new object
    has gone through [start] at time [now], a process that has seen [k]
    firings of the timer and no failed synchronization is at least [k] times
    60000 ms past [now], and its one pending timer is due no earlier than
    [k + 1] times 60000 ms past [now]: each tick sets the next one a full
    interval after its own firing, so ticks that fire late push the later
    ones back and never bunch up. *)
Theorem X10_ticks_are_an_interval_apart :
  forall (w : World) (all_config : Js.value) (args : list string) (now : Z)
         (s : Process) (events : list event) (s' : Process),
    initialize w all_config args (boot now) = (Normal tt, s) ->
    eventHub (this s) <> None ->
    no_failure events = true ->
    run s events = Some s' ->
    now + 60000 * Z.of_nat (fires events) <= clock s'
    /\ exists due,
        timers s' = [due] /\ now + 60000 * (Z.of_nat (fires events) + 1) <= due.
Proof.
  intros w cfg args now s events s' Hinit Hhub _ Hrun.
  destruct (initialize_starts_ticking w cfg args now s Hinit Hhub) as [T C].
  destruct (run_ticking 60000 events _ s s' ltac:(lia) T Hrun)
    as (due' & (H1 & H2 & H3) & B1 & B2).
  split.
  - destruct (fires events) eqn:K.
    + pose proof (run_clock _ _ _ Hrun). simpl. lia.
    + specialize (B2 ltac:(discriminate)). lia.
  - exists due'. split; [ assumption | lia ].
Qed.

Lemma X10_ticks_are_an_interval_apart_witness :
  exists s',
    run (running ["a"] ["a"]) [Elapse 60000; Fire; Elapse 70000; Fire] = Some s'
    /\ 0 + 60000 * Z.of_nat (fires [Elapse 60000; Fire; Elapse 70000; Fire]) <= clock s'.
Proof.
  eexists. split; [ vm_compute; reflexivity | ].
  refine (proj1 (X10_ticks_are_an_interval_apart (friendly ["a"] ["a"]) config_net1 [] 0
                   (running ["a"] ["a"]) [Elapse 60000; Fire; Elapse 70000; Fire]
                   _ _ _ _ _)).
  - reflexivity.
  - vm_compute. discriminate.
  - reflexivity.
  - vm_compute. reflexivity.
Defined.

(* ================================================================== *)
(** ** Further properties of the loop over the channels *)

(** X11: the shape of a run of the loop.  The entries split into those the
    loop visits and those it leaves out.  The calls are those about the
    visited entries, in the order of the entries, the question to the event
    hub first and then the one action it decides.  Either the loop visits
    every entry and the method fulfils, or the last entry visited is one
    reported connected whose [synchBlocks] rejected, and the method rejects
    with that error. *)
Theorem X11_shape_of_a_run :
  forall (status : channel_name -> bool) (settle : channel_name -> option error)
         (entries : list channel_name),
  exists visited skipped,
    entries = (visited ++ skipped)%list
    /\ fst (for_entries status settle entries) = flat_map (calls_about status) visited
    /\ ((skipped = [] /\ snd (for_entries status settle entries) = None)
        \/ exists before a e,
            visited = (before ++ [a])%list /\ status a = true /\ settle a = Some e
            /\ snd (for_entries status settle entries) = Some e).
Proof.
  intros status settle. induction entries as [ | c rest IH].
  - exists [], []. simpl. auto.
  - destruct IH as (visited & skipped & E & F & O).
    simpl. destruct (status c) eqn:S; [ destruct (settle c) as [e | ] eqn:T | ].
    + exists [c], rest. simpl. unfold calls_about. rewrite S. simpl.
      repeat split. right. exists [], c, e. auto.
    + exists (c :: visited), skipped.
      destruct (for_entries status settle rest) as [calls how]. simpl in *.
      unfold calls_about at 1. rewrite S, E, F. simpl. repeat split.
      destruct O as [O | (before & a & e & -> & Sa & Ta & Ho)]; [ now left | right ].
      exists (c :: before), a, e. auto.
    + exists (c :: visited), skipped.
      destruct (for_entries status settle rest) as [calls how]. simpl in *.
      unfold calls_about at 1. rewrite S, E, F. simpl. repeat split.
      destruct O as [O | (before & a & e & -> & Sa & Ta & Ho)]; [ now left | right ].
      exists (c :: before), a, e. auto.
Qed.

Lemma loop_all_disconnected status entries :
  (forall c, In c entries -> status c = false) ->
  loop status entries = (flat_map (calls_about status) entries, None).
Proof.
  induction entries as [ | c rest IH]; intro H; simpl; [ reflexivity | ].
  unfold calls_about at 1. rewrite (H c) by (simpl; auto).
  rewrite IH by (intros; apply H; simpl; auto). reflexivity.
Qed.

Lemma start_loop_all_disconnected :
  forall (s : Process) (hub : FabricEvent) (cl : Client),
    eventHub (this s) = Some hub ->
    client (this s) = Some cl ->
    (forall c, In c (getChannels cl) -> hub_isChannelEventHubConnected hub c = false) ->
    tasks (start_loop s) = tasks s
    /\ rejected (start_loop s) = rejected s
    /\ log (start_loop s)
       = (log s ++ flat_map (fun c => [IsChannelEventHubConnected c false;
                                       ConnectChannelEventHub c]) (getChannels cl))%list
    /\ forall c, synchs c (log (start_loop s)) = synchs c (log s).
Proof.
  intros s hub cl Hh Hc Hd.
  assert (F : flat_map (calls_about (hub_isChannelEventHubConnected hub)) (getChannels cl)
              = flat_map (fun c => [IsChannelEventHubConnected c false;
                                    ConnectChannelEventHub c]) (getChannels cl)).
  { revert Hd. generalize (getChannels cl) as l.
    induction l as [ | c l IHl]; intro Hd; [ reflexivity | ].
    simpl. unfold calls_about at 1. rewrite (Hd c) by (simpl; auto).
    rewrite IHl by (intros; apply Hd; simpl; auto). reflexivity. }
  assert (L : log (start_loop s)
              = (log s ++ flat_map (fun c => [IsChannelEventHubConnected c false;
                                              ConnectChannelEventHub c])
                            (getChannels cl))%list).
  { unfold start_loop. rewrite Hc, (resume_log _ _ hub Hh).
    now rewrite loop_all_disconnected, F. }
  repeat split.
  - unfold start_loop. rewrite Hc, (resume_tasks _ _ hub Hh).
    rewrite loop_all_disconnected by assumption. simpl. apply app_nil_r.
  - unfold start_loop, resume. rewrite Hc, Hh.
    destruct (getChannels cl) as [ | c rest] eqn:G; [ reflexivity | ].
    rewrite <- G, loop_all_disconnected by (rewrite G; assumption). reflexivity.
  - exact L.
  - intro c. rewrite L, synchs_app.
    assert (Z0 : forall l, synchs c (flat_map (fun c0 => [IsChannelEventHubConnected c0 false;
                                          ConnectChannelEventHub c0]) l) = O).
    { induction l as [ | x l IHl]; [ reflexivity | ].
      simpl. now rewrite !synchs_cons. }
    rewrite Z0. lia.
Qed.

(** X12: a call that finds every channel disconnected never waits.  When the
    event hub reports no channel of the client connected, a call of
    [isChannelEventHubConnected] asks for the reconnection of each channel, in
    order, calls [synchBlocks] for none, and is over at once: no loop is left
    suspended and nothing is rejected. *)
Theorem X12_all_disconnected_never_waits :
  forall (s : Process) (hub : FabricEvent) (cl : Client),
    eventHub (this s) = Some hub ->
    client (this s) = Some cl ->
    (forall c, In c (getChannels cl) -> hub_isChannelEventHubConnected hub c = false) ->
    tasks (start_loop s) = tasks s
    /\ rejected (start_loop s) = rejected s
    /\ log (start_loop s)
       = (log s ++ flat_map (fun c => [IsChannelEventHubConnected c false;
                                       ConnectChannelEventHub c]) (getChannels cl))%list
    /\ forall c, synchs c (log (start_loop s)) = synchs c (log s).
Proof. exact start_loop_all_disconnected. Qed.

Lemma X12_all_disconnected_never_waits_witness :
  tasks (start_loop (snd (destroy (running ["a"; "b"] ["a"; "b"]))))
  = tasks (snd (destroy (running ["a"; "b"] ["a"; "b"])))
  /\ log (start_loop (snd (destroy (running ["a"; "b"] ["a"; "b"]))))
     = (log (snd (destroy (running ["a"; "b"] ["a"; "b"])))
          ++ flat_map (fun c => [IsChannelEventHubConnected c false;
                                 ConnectChannelEventHub c])
                      (getChannels {| getChannels := ["a"; "b"] |}))%list.
Proof.
  destruct (X12_all_disconnected_never_waits
              (snd (destroy (running ["a"; "b"] ["a"; "b"])))
              {| streams := [] |} {| getChannels := ["a"; "b"] |})
    as (H1 & _ & H2 & _).
  - vm_compute. reflexivity.
  - vm_compute. reflexivity.
  - intros c _. reflexivity.
  - split; assumption.
Defined.

(* ------------------------------------------------------------------ *)
(** *** The loop stays with the channels of the client *)












(* ================================================================== *)
(** ** Further properties of [setBlocksSyncTime] *)

Lemma digits_app acc ds c rest :
  all_digits ds = true -> Js.digit c = None ->
  Js.digits acc (ds ++ String c rest) = Js.digits acc ds.
Proof.
  intros H Hc. revert acc. induction ds as [ | d ds IH]; intro acc; simpl.
  - now rewrite Hc.
  - simpl in H. destruct (Js.digit d); [ | discriminate ]. now apply IH.
Qed.

(** A character that is a decimal digit is no white space and no sign, so a
    string that starts with one is read by [parseInt] from its first
    character. *)
Lemma parseInt_string_digit d rest :
  Js.digit d <> None ->
  Js.parseInt_string (String d rest) = Js.digits None (String d rest).
Proof.
  destruct d as [[ | ] [ | ] [ | ] [ | ] [ | ] [ | ] [ | ] [ | ]];
    intro H; try reflexivity; exfalso; apply H; reflexivity.
Qed.

(** X15: [setBlocksSyncTime] reads the digits at the front and ignores what
    follows.  For a string that starts with decimal digits, anything from the
    first character that is not a digit on makes no difference: ["5.9"] and
    ["5 minutes"] count as ["5"].  Minutes are cut, not rounded. *)
Theorem X15_setBlocksSyncTime_ignores_what_follows_the_digits :
  forall (ds : string) (c : ascii) (rest : string) (s : Process),
    ds <> EmptyString ->
    all_digits ds = true ->
    Js.digit c = None ->
    setBlocksSyncTime (Js.Str (ds ++ String c rest)) s = setBlocksSyncTime (Js.Str ds) s.
Proof.
  intros ds c rest s Hne Hd Hc.
  destruct ds as [ | d ds']; [ congruence | ].
  assert (Dd : Js.digit d <> None).
  { simpl in Hd. destruct (Js.digit d); discriminate. }
  assert (P : Js.parseInt_string (String d ds' ++ String c rest)
              = Js.parseInt_string (String d ds')).
  { change (String d ds' ++ String c rest) with (String d (ds' ++ String c rest)).
    rewrite !parseInt_string_digit by exact Dd.
    change (String d (ds' ++ String c rest)) with (String d ds' ++ String c rest).
    now apply digits_app. }
  unfold setBlocksSyncTime, Js.parseInt. simpl. run_monad. simpl.
  change (String d (ds' ++ String c rest)) with (String d ds' ++ String c rest).
  now rewrite P.
Qed.

Lemma X15_setBlocksSyncTime_ignores_what_follows_the_digits_witness :
  setBlocksSyncTime (Js.Str ("5" ++ String "." "9")) (boot 0)
  = setBlocksSyncTime (Js.Str "5") (boot 0).
Proof.
  apply (X15_setBlocksSyncTime_ignores_what_follows_the_digits "5" "." "9" (boot 0)).
  - discriminate.
  - reflexivity.
  - reflexivity.
Defined.

(* ------------------------------------------------------------------ *)
(** *** Numbers given as numbers *)

Lemma digits_string_of_uint u : forall acc,
  Js.digits (Some acc) (NilEmpty.string_of_uint u) = Some (uint_value u acc).
Proof. induction u; intro acc; simpl; auto. Qed.

Lemma digits_string_of_uint_start u :
  u <> Decimal.Nil ->
  Js.digits None (NilEmpty.string_of_uint u) = Some (uint_value u 0).
Proof.
  destruct u; intro H; try congruence; simpl; apply digits_string_of_uint.
Qed.

Lemma uint_value_pos u : forall p,
  uint_value u (Z.pos p) = Z.pos (Pos.of_uint_acc u p).
Proof.
  induction u; intro p; cbn [uint_value Pos.of_uint_acc]; try reflexivity;
    rewrite <- IHu; f_equal; rewrite ?Pos2Z.inj_add, ?Pos2Z.inj_mul; lia.
Qed.

Lemma uint_value_zero u : uint_value u 0 = Z.of_N (Pos.of_uint u).
Proof.
  induction u; cbn [uint_value Pos.of_uint]; try reflexivity; try exact IHu;
    cbn [Z.of_N]; rewrite <- uint_value_pos; reflexivity.
Qed.

Lemma to_uint_not_Nil p : Pos.to_uint p <> Decimal.Nil.
Proof.
  intro H. pose proof (Unsigned.of_to p) as Q. rewrite H in Q. discriminate.
Qed.

(** The decimal numeral of a positive number, read back. *)
Lemma parseInt_string_numeral p :
  Js.parseInt_string (NilZero.string_of_uint (Pos.to_uint p)) = Some (Z.pos p)
  /\ Js.digits None (NilZero.string_of_uint (Pos.to_uint p)) = Some (Z.pos p).
Proof.
  pose proof (to_uint_not_Nil p) as N.
  assert (D : Js.digits None (NilEmpty.string_of_uint (Pos.to_uint p)) = Some (Z.pos p)).
  { rewrite digits_string_of_uint_start by exact N.
    now rewrite uint_value_zero, Unsigned.of_to. }
  assert (E : NilZero.string_of_uint (Pos.to_uint p)
              = NilEmpty.string_of_uint (Pos.to_uint p)).
  { unfold NilZero.string_of_uint. destruct (Pos.to_uint p); congruence. }
  rewrite E. split; [ | exact D ].
  destruct (Pos.to_uint p); try congruence; simpl in *; exact D.
Qed.

(** [parseInt] gives a whole number back as it is. *)
Lemma parseInt_Num n : Js.parseInt (Js.Num n) = Normal (Some n).
Proof.
  unfold Js.parseInt. simpl. f_equal. destruct n as [ | p | p]; simpl.
  - reflexivity.
  - apply parseInt_string_numeral.
  - destruct (parseInt_string_numeral p) as [_ D].
    unfold Js.parseInt_string. simpl. now rewrite D.
Qed.

(** X16: an interval given as a number.  [setBlocksSyncTime] called with a
    whole number [n] of minutes other than 0 sets the interval to
    [n * 60000] ms, negative numbers included; the number 0 is falsy and
    changes nothing.  (Stated where the doubles of the source are exact.) *)
Theorem X16_setBlocksSyncTime_of_a_number :
  forall (n : Z) (s : Process),
    Z.abs (n * 60000) <= 2 ^ 53 ->
    fst (setBlocksSyncTime (Js.Num n) s) = Normal tt
    /\ (n <> 0 -> interval_after (Js.Num n) s = n * 60000)
    /\ (n = 0 -> setBlocksSyncTime (Js.Num n) s = (Normal tt, s)).
Proof.
  intros n s _. destruct (Z.eq_dec n 0) as [-> | Hn].
  - repeat split; try reflexivity. congruence.
  - assert (T : Js.truthy (Js.Num n) = true).
    { simpl. apply negb_true_iff. now apply Z.eqb_neq. }
    pose proof (setBlocksSyncTime_integer (Js.Num n) n s T (parseInt_Num n)) as E.
    repeat split.
    + now rewrite E.
    + intros _. unfold interval_after. rewrite E. simpl. lia.
    + congruence.
Qed.

Lemma X16_setBlocksSyncTime_of_a_number_witness :
  interval_after (Js.Num 15) (boot 0) = 15 * 60000.
Proof.
  destruct (X16_setBlocksSyncTime_of_a_number 15 (boot 0)) as (_ & H & _).
  - vm_compute. discriminate.
  - apply H. discriminate.
Defined.

(* ================================================================== *)
(** ** The method and the event loop *)

Lemma settlements_length status settle entries :
  (List.length (settlements status settle entries) <= List.length entries)%nat.
Proof.
  induction entries as [ | c rest IH]; simpl; [ lia | ].
  destruct (status c); [ destruct (settle c) | ]; simpl; lia.
Qed.

Lemma isChannelEventHubConnected_for_entries settle p hub cl :
  eventHub p = Some hub -> client p = Some cl ->
  isChannelEventHubConnected settle p
  = for_entries (hub_isChannelEventHubConnected hub) settle (getChannels cl).
Proof.
  intros Hh Hc. unfold isChannelEventHubConnected. rewrite Hc, Hh.
  destruct (getChannels cl); reflexivity.
Qed.

(** X17: a call of the method, seen in the process.  In a process where no
    loop is suspended, a call of [isChannelEventHubConnected] followed by the
    settlement of each [synchBlocks] it awaits, at most one per channel of the
    client, is over: nothing is left suspended, the calls made are exactly
    those of the method run to its end, in the same order, and a rejection is
    recorded exactly when the method rejects.  The timers are not touched. *)
Theorem X17_a_call_runs_to_its_end :
  forall (settle : channel_name -> option error) (s : Process)
         (hub : FabricEvent) (cl : Client),
    eventHub (this s) = Some hub ->
    client (this s) = Some cl ->
    tasks s = [] ->
    (List.length (settlements (hub_isChannelEventHubConnected hub) settle (getChannels cl))
     <= List.length (getChannels cl))%nat
    /\ exists s',
        run (start_loop s)
            (settlements (hub_isChannelEventHubConnected hub) settle (getChannels cl))
        = Some s'
        /\ log s' = (log s ++ fst (isChannelEventHubConnected settle (this s)))%list
        /\ tasks s' = []
        /\ rejected s'
           = (rejected s ++ match snd (isChannelEventHubConnected settle (this s)) with
                            | Some e => [e]
                            | None => []
                            end)%list
        /\ timers s' = timers s.
Proof.
  intros settle s hub cl Hh Hc Ht. split; [ apply settlements_length | ].
  rewrite (isChannelEventHubConnected_for_entries settle (this s) hub cl Hh Hc).
  unfold start_loop. rewrite Hc.
  destruct (resume_runs_for_entries settle hub (getChannels cl) s Hh Ht)
    as (s' & R & L & T & J & _ & Q).
  exists s'. auto.
Qed.

Lemma X17_a_call_runs_to_its_end_witness :
  exists s',
    run (start_loop (running ["a"; "b"] ["b"]))
        (settlements (hub_isChannelEventHubConnected {| streams := ["b"] |})
           (fun _ => None) (getChannels {| getChannels := ["a"; "b"] |}))
    = Some s'
    /\ log s' = (log (running ["a"; "b"] ["b"])
                   ++ fst (isChannelEventHubConnected (fun _ => None)
                             (this (running ["a"; "b"] ["b"]))))%list
    /\ tasks s' = []
    /\ rejected s'
       = (rejected (running ["a"; "b"] ["b"])
            ++ match snd (isChannelEventHubConnected (fun _ => None)
                            (this (running ["a"; "b"] ["b"]))) with
               | Some e => [e]
               | None => []
               end)%list
    /\ timers s' = timers (running ["a"; "b"] ["b"]).
Proof.
  destruct (X17_a_call_runs_to_its_end (fun _ => None) (running ["a"; "b"] ["b"])
              {| streams := ["b"] |} {| getChannels := ["a"; "b"] |}) as [_ H].
  - vm_compute. reflexivity.
  - vm_compute. reflexivity.
  - vm_compute. reflexivity.
  - exact H.
Defined.
